(** * Batch export of the census address table: model and properties

    A shallow embedding of [batch_import_data.py]: the paginated export
    [batch_import_bigquery_data] and the sampling pass
    [create_sample_from_batches].

    The remote query engine and the file writer are the two collaborators
    whose calls can raise; they are a parameter [Env] of the model.  The
    program runs in a state-and-exception monad over the file system, the
    log of the calls made so far and the local accumulators of the two
    functions.  Timing values and the progress percentage (floating point,
    printed only) are left out of the messages; everything that decides
    control flow is kept. *)

From stdpp Require Import gmap strings pretty list sorting.
From Stdlib Require Import ZArith Lia Ascii.

Local Open Scope Z_scope.
Local Open Scope string_scope.
Local Open Scope list_scope.

(** ** Text formatting used by the f-strings *)

Module Fmt.

Fixpoint zeros (n : nat) : string :=
  match n with
  | O => ""
  | S n' => String "0" (zeros n')
  end.

(** The sign Python prints in front of an integer. *)
Definition sign (z : Z) : string := if bool_decide (z < 0) then "-" else "".

(** [str(z)] and the plain [{z}] field. *)
Definition str (z : Z) : string := sign z +:+ pretty (Z.abs z).

(** [{z:04d}]: sign first, then zeros up to a total width of 4; a number
    that needs more room is printed in full. *)
Definition d04 (z : Z) : string :=
  let digits := pretty (Z.abs z) in
  sign z
  +:+ zeros (4 - String.length (sign z) - String.length digits)
  +:+ digits.

(** Insert a comma after every third digit; the digits come least
    significant first. *)
Fixpoint group3 (rev_digits : list ascii) : list ascii :=
  match rev_digits with
  | a :: b :: c :: rest =>
      match rest with
      | [] => rev_digits
      | _ :: _ => a :: b :: c :: ","%char :: group3 rest
      end
  | _ => rev_digits
  end.

(** [{z:,}]: thousands separators. *)
Definition thousands (z : Z) : string :=
  sign z
  +:+ String.string_of_list_ascii
        (rev (group3 (rev (String.list_ascii_of_string (pretty (Z.abs z)))))).

Definition nl : string := String (ascii_of_nat 10) "".

(** [s.endswith(suffix)] *)
Definition endswith (s suffix : string) : bool :=
  bool_decide
    (String.length suffix <= String.length s
     /\ String.substring (String.length s - String.length suffix)
                  (String.length suffix) s = suffix)%nat.

End Fmt.

(** ** Data model *)

(** The exceptions the collaborators raise; all of them are instances of
    Python's [Exception], the class the handler of the loop catches. *)
Record exn := Exception { message : string }.

Global Instance exn_eq_dec : EqDecision exn.
Proof. solve_decision. Defined.

Inductive Result (A : Type) :=
  | Returns (a : A)
  | Raises (e : exn).
Arguments Returns {A} a.
Arguments Raises {A} e.

(** How one iteration of a [for] loop ends: it falls through (or executes
    [continue]), or it executes [break]. *)
Inductive ctl := Continue | Break.

(** One row of the result: the three selected columns.  The type of the
    two coordinates (floating point in the source) is a parameter. *)
Record BatchRow (coord : Type) := mkRow {
  cep : string;
  latitude : coord;
  longitude : coord
}.
Arguments mkRow {coord} cep latitude longitude.
Arguments cep {coord} b.
Arguments latitude {coord} b.
Arguments longitude {coord} b.

(** What the program prints, one constructor per [print] statement. *)
Inductive Msg :=
  | MsgCounting
  | MsgTotalRows (total_rows : Z)
  | MsgPlan (num_batches batch_size : Z)
  | MsgCreatedDir (dir : string)
  | MsgProcessing (number num_batches row_from row_to : Z)
  | MsgZeroRows (number : Z)
  | MsgBatchCompleted (number : Z)
  | MsgBatchRows (rows : nat)
  | MsgBatchTime
  | MsgBatchSaved (filename : string)
  | MsgProgress (processed_rows total_rows : Z)
  | MsgBatchError (number : Z) (e : exn)
  | MsgProcessingCompleted
  | MsgTotalTime
  | MsgBatchFilesIn (dir : string)
  | MsgCreatingCombined
  | MsgCombinedSaved (filename : string)
  | MsgCombinedRows (rows : nat)
  | MsgNoBatchData
  | MsgCreatingSample
  | MsgSampleCreated (filename : string)
  | MsgSampleRows (rows : nat)
  | MsgNoDataInBatches.

Section Model.

Context {coord : Type}.

(** A dataframe is the list of its rows, in order. *)
Definition DataFrame : Type := list (BatchRow coord).

(** The log of the calls that reached a collaborator or the terminal: the
    count query, every batch query issued (with its text), every file
    that was written or read (with its path), every line printed. *)
Inductive Event :=
  | EvCount (sql : string)
  | EvQuery (sql : string)
  | EvToCsv (path : string) (df : DataFrame)
  | EvReadCsv (path : string)
  | EvPrint (m : Msg).

(** The collaborators.  [src_count] is the outcome of the count query,
    [src_query sql] the outcome of the batch query with text [sql],
    [fs_write path df] the exception [df.to_csv(path)] raises, if any. *)
Record Env := mkEnv {
  src_count : Result Z;
  src_query : string -> Result DataFrame;
  fs_write : string -> DataFrame -> option exn
}.

Record State := mkState {
  files : gmap string DataFrame;
  dirs : gset string;
  trace : list Event;
  all_data : list DataFrame;
  sample_data : list DataFrame
}.

Definition M (A : Type) : Type := State -> Result A * State.

Global Instance M_ret : MRet M := fun A a s => (Returns a, s).

Global Instance M_bind : MBind M := fun A B f m s =>
  match m s with
  | (Returns a, s') => f a s'
  | (Raises e, s') => (Raises e, s')
  end.

Definition raise {A} (e : exn) : M A := fun s => (Raises e, s).

(** Nothing to do (an absent [else] branch). *)
Definition skip : M unit := mret tt.

(** [try: body except Exception as e: handler e] *)
Definition try_except {A} (body : M A) (handler : exn -> M A) : M A :=
  fun s =>
    match body s with
    | (Returns a, s') => (Returns a, s')
    | (Raises e, s') => handler e s'
    end.

(** [for x in xs: body x], where the body says whether it executed
    [break]. *)
Fixpoint for_in {A} (xs : list A) (body : A -> M ctl) : M unit :=
  match xs with
  | [] => mret tt
  | x :: xs' =>
      c ← body x;
      match c with
      | Break => mret tt
      | Continue => for_in xs' body
      end
  end.

Definition emit (ev : Event) : M unit := fun s =>
  (Returns tt,
   mkState (files s) (dirs s) (trace s ++ [ev]) (all_data s) (sample_data s)).

Definition print (m : Msg) : M unit := emit (EvPrint m).

Definition get_all_data : M (list DataFrame) := fun s => (Returns (all_data s), s).
Definition set_all_data (l : list DataFrame) : M unit := fun s =>
  (Returns tt, mkState (files s) (dirs s) (trace s) l (sample_data s)).
Definition get_sample_data : M (list DataFrame) :=
  fun s => (Returns (sample_data s), s).
Definition set_sample_data (l : list DataFrame) : M unit := fun s =>
  (Returns tt, mkState (files s) (dirs s) (trace s) (all_data s) l).

(** [range(n)]: empty when [n <= 0]. *)
Definition range (n : Z) : list Z := seqZ 0 n.

(** [df.head(n)]: the first [n] rows, or all but the last [-n] rows when
    [n] is negative. *)
Definition head (n : Z) (df : DataFrame) : DataFrame :=
  if bool_decide (0 <= n) then take (Z.to_nat n) df
  else take (length df - Z.to_nat (- n)) df.

Definition ValueError_concat : exn := Exception "No objects to concatenate".

(** [pd.concat(dfs, ignore_index=True)] *)
Definition pd_concat (dfs : list DataFrame) : M DataFrame :=
  match dfs with
  | [] => raise ValueError_concat
  | _ :: _ => mret (concat dfs)
  end.

Section WithEnv.

Variable env : Env.

(** [client.query(sql).to_dataframe().iloc[0]["total_rows"]] *)
Definition query_count (sql : string) : M Z := fun s =>
  let (_, s') := emit (EvCount sql) s in
  (src_count env, s').

(** [client.query(sql).to_dataframe()] *)
Definition client_query (sql : string) : M DataFrame := fun s =>
  let (_, s') := emit (EvQuery sql) s in
  (src_query env sql, s').

(** [df.to_csv(path, index=False)]: on success the file holds the
    table. *)
Definition to_csv (df : DataFrame) (path : string) : M unit := fun s =>
  match fs_write env path df with
  | Some e => (Raises e, s)
  | None =>
      (Returns tt,
       mkState (<[path := df]> (files s)) (dirs s)
               (trace s ++ [EvToCsv path df]) (all_data s) (sample_data s))
  end.

(** ** The file system calls *)

(** [os.path.exists(p)] *)
Definition os_path_exists (p : string) : M bool := fun s =>
  (Returns (bool_decide (p ∈ dirs s \/ is_Some (files s !! p))), s).

(** [os.makedirs(p)] *)
Definition os_makedirs (p : string) : M unit := fun s =>
  (Returns tt,
   mkState (files s) ({[ p ]} ∪ dirs s) (trace s) (all_data s)
           (sample_data s)).

(** [os.path.join(d, f)] for a file name [f] that [os.listdir] gave. *)
Definition os_path_join (d f : string) : string := d +:+ "/" +:+ f.

Fixpoint strip_prefix (p s : string) : option string :=
  match p, s with
  | EmptyString, _ => Some s
  | String a p', String b s' =>
      if decide (a = b) then strip_prefix p' s' else None
  | String _ _, EmptyString => None
  end.

Fixpoint has_slash (s : string) : bool :=
  match s with
  | EmptyString => false
  | String a s' => if decide (a = "/"%char) then true else has_slash s'
  end.

(** The entry of directory [d] that the file at [path] is, if it
    lies directly in [d]. *)
Definition entry_of (d path : string) : option string :=
  match strip_prefix (d +:+ "/") path with
  | Some f => if has_slash f then None else Some f
  | None => None
  end.

(** [os.listdir(d)]: the names of the files in [d], in the order the
    file system gives them. *)
Definition os_listdir (d : string) : M (list string) := fun s =>
  (Returns (omap (entry_of d) (map_to_list (files s)).*1), s).

Definition FileNotFoundError (path : string) : exn :=
  Exception ("No such file or directory: " +:+ path).

(** [pd.read_csv(path)] *)
Definition read_csv (path : string) : M DataFrame := fun s =>
  match files s !! path with
  | Some df => let (_, s') := emit (EvReadCsv path) s in (Returns df, s')
  | None => (Raises (FileNotFoundError path), s)
  end.

(** [sorted(names)]: Python orders strings by code point, which for
    UTF-8 text is the order of the byte strings. *)
Definition sorted (names : list string) : list string :=
  merge_sort String.le names.

(** ** The program *)

Definition OUTPUT_DIR : string := "batch_data".

Definition count_query : string :=
  Fmt.nl
  +:+ "    SELECT COUNT(*) as total_rows" +:+ Fmt.nl
  +:+ "    FROM `basedosdados.br_ibge_censo_2022.cadastro_enderecos`" +:+ Fmt.nl
  +:+ "    WHERE cep IS NOT NULL " +:+ Fmt.nl
  +:+ "      AND latitude IS NOT NULL " +:+ Fmt.nl
  +:+ "      AND longitude IS NOT NULL" +:+ Fmt.nl
  +:+ "    ".

(** The ordering key every batch query carries. *)
Definition order_by_clause : string := "ORDER BY cep, latitude, longitude".

(** The text of the batch query up to its ordering key. *)
Definition select_clause : string :=
  Fmt.nl
  +:+ "        SELECT " +:+ Fmt.nl
  +:+ "            cep," +:+ Fmt.nl
  +:+ "            latitude," +:+ Fmt.nl
  +:+ "            longitude" +:+ Fmt.nl
  +:+ "        FROM `basedosdados.br_ibge_censo_2022.cadastro_enderecos`" +:+ Fmt.nl
  +:+ "        WHERE cep IS NOT NULL " +:+ Fmt.nl
  +:+ "          AND latitude IS NOT NULL " +:+ Fmt.nl
  +:+ "          AND longitude IS NOT NULL" +:+ Fmt.nl
  +:+ "        ".

(** The text of the batch query, the f-string of the loop body. *)
Definition batch_query (batch_size offset : Z) : string :=
  select_clause +:+ order_by_clause +:+ Fmt.nl
  +:+ "        LIMIT " +:+ Fmt.str batch_size
  +:+ " OFFSET " +:+ Fmt.str offset +:+ Fmt.nl
  +:+ "        ".

(** [f"{OUTPUT_DIR}/batch_{number:04d}_{rows:,}_rows.csv"] *)
Definition batch_filename (number : Z) (rows : nat) : string :=
  OUTPUT_DIR +:+ "/batch_" +:+ Fmt.d04 number +:+ "_"
  +:+ Fmt.thousands (Z.of_nat rows) +:+ "_rows.csv".

Definition combined_filename : string := "bigquery_all_data_combined.csv".
Definition sample_filename : string := "bigquery_sample_from_batches.csv".

(** [(total_rows + batch_size - 1) // batch_size].  [total_rows] is the
    integer the count query gave; floor division, and a zero divisor
    gives 0 as it does for the integer type of the dataframe. *)
Definition num_batches (total_rows batch_size : Z) : Z :=
  (total_rows + batch_size - 1) `div` batch_size.

(** The body of the loop over [range(num_batches)].  The progress
    fraction is computed for printing only and raises nothing. *)
Definition process_batch (total_rows batch_size nbatches batch_num : Z)
  : M ctl :=
  let offset := batch_num * batch_size in
  print (MsgProcessing (batch_num + 1) nbatches offset
                       (Z.min (offset + batch_size) total_rows));;
  try_except
    (df_batch ← client_query (batch_query batch_size offset);
     if bool_decide (length df_batch = 0%nat) then
       print (MsgZeroRows (batch_num + 1));;
       mret Break
     else
       let filename := batch_filename (batch_num + 1) (length df_batch) in
       to_csv df_batch filename;;
       let processed_rows := offset + Z.of_nat (length df_batch) in
       print (MsgBatchCompleted (batch_num + 1));;
       print (MsgBatchRows (length df_batch));;
       print MsgBatchTime;;
       print (MsgBatchSaved filename);;
       print (MsgProgress processed_rows total_rows);;
       acc ← get_all_data;
       set_all_data (acc ++ [df_batch]);;
       mret Continue)
    (fun e =>
       print (MsgBatchError (batch_num + 1) e);;
       mret Continue).

(** The combination step after the loop, [if all_data: ...]. *)
Definition combine : M unit :=
  acc ← get_all_data;
  match acc with
  | [] => skip
  | _ :: _ =>
      print MsgCreatingCombined;;
      combined_df ← pd_concat acc;
      to_csv combined_df combined_filename;;
      print (MsgCombinedSaved combined_filename);;
      print (MsgCombinedRows (length combined_df))
  end.

(** [if not os.path.exists(OUTPUT_DIR): os.makedirs(OUTPUT_DIR); print(...)] *)
Definition ensure_output_dir : M unit :=
  present ← os_path_exists OUTPUT_DIR;
  if (present : bool) then skip
  else os_makedirs OUTPUT_DIR;; print (MsgCreatedDir OUTPUT_DIR).

Definition batch_import_bigquery_data (batch_size : Z) : M bool :=
  print MsgCounting;;
  total_rows ← query_count count_query;
  print (MsgTotalRows total_rows);;
  let nbatches := num_batches total_rows batch_size in
  print (MsgPlan nbatches batch_size);;
  ensure_output_dir;;
  set_all_data [];;
  for_in (range nbatches)
         (process_batch total_rows batch_size nbatches);;
  print MsgProcessingCompleted;;
  print MsgTotalTime;;
  print (MsgBatchFilesIn OUTPUT_DIR);;
  combine;;
  mret true.

(** The body of the loop over the first five batch files. *)
Definition read_batch_file (sample_size : Z) (batch_file : string) : M ctl :=
  let file_path := os_path_join OUTPUT_DIR batch_file in
  df ← read_csv file_path;
  acc ← get_sample_data;
  set_sample_data (acc ++ [df]);;
  acc' ← get_sample_data;
  so_far ← pd_concat acc';
  if bool_decide (sample_size <= Z.of_nat (length so_far)) then mret Break
  else mret Continue.

Definition create_sample_from_batches (sample_size : Z) : M unit :=
  present ← os_path_exists OUTPUT_DIR;
  if negb present then print MsgNoBatchData
  else
    print MsgCreatingSample;;
    set_sample_data [];;
    names ← os_listdir OUTPUT_DIR;
    let batch_files :=
      sorted (filter (fun f => Fmt.endswith f ".csv" = true) names) in
    for_in (take 5 batch_files) (read_batch_file sample_size);;
    acc ← get_sample_data;
    match acc with
    | [] => print MsgNoDataInBatches
    | _ :: _ =>
        joined ← pd_concat acc;
        let sample_df := head sample_size joined in
        to_csv sample_df sample_filename;;
        print (MsgSampleCreated sample_filename);;
        print (MsgSampleRows (length sample_df))
    end.

End WithEnv.

End Model.

Arguments Env : clear implicits.
Arguments State : clear implicits.
Arguments Event : clear implicits.
Arguments DataFrame : clear implicits.

(** ** The scripts

    The entry point of [batch_import_data.py] and the four one-shot
    scripts [import_all_data.py], [import_bigquery_data.py],
    [simple_test.py] and [test_connection.py].  They run on a host: the
    process environment, the keyboard, and the outcome of building the
    BigQuery client.  What a script prints itself goes to the console of
    the session; the calls it makes to the query engine and the file
    writer go to the log of the state, as for the two functions above. *)

(** *** Text typed at the prompt

    A Python [str] is a sequence of code points. *)
Definition text : Type := list N.

(** The code points of an ASCII literal. *)
Definition literal (s : string) : text :=
  N_of_ascii <$> String.list_ascii_of_string s.

(** [c.isspace()]: the characters [str.strip()] removes. *)
Definition isspace (c : N) : bool :=
  bool_decide (9 <= c <= 13 \/ 28 <= c <= 32 \/ c = 133 \/ c = 160
               \/ c = 5760 \/ 8192 <= c <= 8202 \/ c = 8232 \/ c = 8233
               \/ c = 8239 \/ c = 8287 \/ c = 12288)%N.

Fixpoint lstrip (t : text) : text :=
  match t with
  | [] => []
  | c :: t' => if isspace c then lstrip t' else t
  end.

Definition rstrip (t : text) : text := reverse (lstrip (reverse t)).

(** [t.strip()] *)
Definition strip (t : text) : text := rstrip (lstrip t).

(** What [input()] meets: a line, the end of the input, or Ctrl-C.  The
    interrupt is modelled at the prompt, where the script waits for the
    user; the collaborators raise instances of [Exception] only. *)
Inductive Keyboard :=
  | Typed (line : text)
  | EndOfFile
  | CtrlC.

Definition EOFError : exn := Exception "EOF when reading a line".

Record Host := mkHost {
  environ : gmap string string;
  keyboard : Keyboard;
  client_init : option exn
}.

(** The truth value of [os.environ.get(key)]: set, and not empty. *)
Definition truthy (v : option string) : bool :=
  match v with
  | Some (String _ _) => true
  | _ => false
  end.

(** How a piece of a script ends.  [KeyboardInterrupt] is not an
    [Exception]: a handler for [Exception] lets it pass. *)
Inductive Outcome (A : Type) :=
  | Done (a : A)
  | Thrown (e : exn)
  | Interrupted.
Arguments Done {A} a.
Arguments Thrown {A} e.
Arguments Interrupted {A}.

Section Scripts.

Context {coord : Type}.

(** What the scripts print, one constructor per text. *)
Inductive Said :=
  (* shared *)
  | SaidRule (width : nat)
  | SaidNoCredentials
  | SaidUsingGcloud
  | SaidFilesCreated
  | SaidFrame (rows : DataFrame coord)
  | SaidError (e : exn)
  | SaidErrorType (e : exn)
  | SaidColumnsPlain
  (* batch_import_data.py *)
  | SaidBatchTitle
  | SaidOptions
  | SaidSmallBatches
  | SaidMediumBatches
  | SaidLargeBatches
  | SaidSelectBatchSize
  | SaidDefaultBatchSize (batch_size : Z)
  | SaidStartingBatchImport (batch_size : Z)
  | SaidAllDone (dir : string)
  | SaidIndividualFilesIn (dir : string)
  | SaidCombinedFile
  | SaidSampleFile
  | SaidInterrupted
  | SaidPartialFiles
  | SaidUnexpectedError (e : exn)
  (* import_all_data.py *)
  | SaidStartingAll
  | SaidMayTakeAWhile
  | SaidDashes (width : nat)
  | SaidCountingRows
  | SaidTotalRows (total_rows : Z)
  | SaidLargeDataset
  | SaidConsiderBatches
  | SaidExecutingMain
  | SaidImported (rows : nat)
  | SaidColumns
  | SaidMemoryUsage
  | SaidFirstRows
  | SaidLastRows
  | SaidSaving (file : string)
  | SaidSaved (file : string)
  | SaidSampleSaved (file : string)
  | SaidAllTitle
  | SaidImportCompleted
  | SaidTotalImported (rows : nat)
  | SaidAllDataFile
  | SaidSampleDataFile
  | SaidImportFailed
  (* import_bigquery_data.py *)
  | SaidExecutingQuery
  | SaidImportedRows (rows : nat)
  | SaidFirstFewRows
  | SaidDataSaved (file : string)
  | SaidErrorPlain (e : exn)
  | SaidNoCredentialsPlain
  | SaidSetUpAuth
  (* simple_test.py *)
  | SaidSimpleTest
  | SaidTestingAccess
  | SaidExecuting
  | SaidSuccess (rows : nat)
  | SaidData
  | SaidErrorSpace (e : exn)
  (* test_connection.py *)
  | SaidTestingBigQuery
  | SaidInitializing
  | SaidTestingConnection
  | SaidSuccessCheck (rows : nat)
  | SaidSampleData
  | SaidTips
  | SaidTipAuthenticate
  | SaidTipEnableApi
  | SaidTipPermissions.

Record Session := mkSession {
  disk : State coord;
  console : list Said
}.

Definition Script (A : Type) : Type := Session -> Outcome A * Session.

Global Instance Script_ret : MRet Script := fun A a σ => (Done a, σ).

Global Instance Script_bind : MBind Script := fun A B f m σ =>
  match m σ with
  | (Done a, σ') => f a σ'
  | (Thrown e, σ') => (Thrown e, σ')
  | (Interrupted, σ') => (Interrupted, σ')
  end.

(** Nothing to do (an absent [else] branch). *)
Definition pass : Script unit := mret tt.

(** [try: body except Exception as e: handler e] *)
Definition try_exception {A} (body : Script A) (handler : exn -> Script A)
  : Script A :=
  fun σ =>
    match body σ with
    | (Thrown e, σ') => handler e σ'
    | r => r
    end.

(** [try: body except KeyboardInterrupt: on_interrupt
    except Exception as e: handler e] *)
Definition try_interrupt_exception {A} (body : Script A)
           (on_interrupt : Script A) (handler : exn -> Script A) : Script A :=
  fun σ =>
    match body σ with
    | (Done a, σ') => (Done a, σ')
    | (Interrupted, σ') => on_interrupt σ'
    | (Thrown e, σ') => handler e σ'
    end.

(** [print(...)] in a script. *)
Definition say (m : Said) : Script unit := fun σ =>
  (Done tt, mkSession (disk σ) (console σ ++ [m])).

(** A call of one of the functions above, or of a collaborator. *)
Definition call {A} (m : M A) : Script A := fun σ =>
  match m (disk σ) with
  | (Returns a, s') => (Done a, mkSession s' (console σ))
  | (Raises e, s') => (Thrown e, mkSession s' (console σ))
  end.

(** [df.tail()]: the last [n] rows. *)
Definition tail (n : nat) (df : DataFrame coord) : DataFrame coord :=
  drop (length df - n) df.

Section OnHost.

Variable env : Env coord.
Variable host : Host.

(** [input(prompt)]: the prompt is printed, then a line is read. *)
Definition input (prompt : Said) : Script text := fun σ =>
  let σ' := mkSession (disk σ) (console σ ++ [prompt]) in
  match keyboard host with
  | Typed line => (Done line, σ')
  | EndOfFile => (Thrown EOFError, σ')
  | CtrlC => (Interrupted, σ')
  end.

(** [client = bigquery.Client()] *)
Definition bigquery_Client : Script unit := fun σ =>
  match client_init host with
  | Some e => (Thrown e, σ)
  | None => (Done tt, σ)
  end.

(** [os.environ.get("GOOGLE_APPLICATION_CREDENTIALS")] as a condition. *)
Definition credentials_set : bool :=
  truthy (environ host !! "GOOGLE_APPLICATION_CREDENTIALS").

(** *** The entry point of [batch_import_data.py] *)

(** The [if]/[elif] chain on the stripped answer. *)
Definition select_batch_size (choice : text) : Script Z :=
  if decide (choice = literal "1") then mret 50000
  else if decide (choice = literal "2") then mret 100000
  else if decide (choice = literal "3") then mret 250000
  else
    let batch_size := 100000 in
    say (SaidDefaultBatchSize batch_size);;
    mret batch_size.

(** The export as the script calls it.  Its first statement builds the
    client; the model of the function above starts after it. *)
Definition call_batch_import (batch_size : Z) : Script bool :=
  bigquery_Client;;
  call (batch_import_bigquery_data env batch_size).

(** The default of [create_sample_from_batches(sample_size=10000)]. *)
Definition default_sample_size : Z := 10000.

Definition batch_main : Script unit :=
  say (SaidRule 70);;
  say SaidBatchTitle;;
  say (SaidRule 70);;
  (if credentials_set then pass
   else say SaidNoCredentials;; say SaidUsingGcloud);;
  say SaidOptions;;
  say SaidSmallBatches;;
  say SaidMediumBatches;;
  say SaidLargeBatches;;
  try_interrupt_exception
    (line ← input SaidSelectBatchSize;
     let choice := strip line in
     batch_size ← select_batch_size choice;
     say (SaidStartingBatchImport batch_size);;
     success ← call_batch_import batch_size;
     if (success : bool) then
       call (create_sample_from_batches env default_sample_size);;
       say (SaidAllDone OUTPUT_DIR);;
       say SaidFilesCreated;;
       say (SaidIndividualFilesIn OUTPUT_DIR);;
       say SaidCombinedFile;;
       say SaidSampleFile
     else pass)
    (say SaidInterrupted;;
     say SaidPartialFiles)
    (fun e => say (SaidUnexpectedError e)).

(** *** [import_all_data.py] *)

Definition all_query : string :=
  Fmt.nl
  +:+ "    SELECT " +:+ Fmt.nl
  +:+ "        cep," +:+ Fmt.nl
  +:+ "        latitude," +:+ Fmt.nl
  +:+ "        longitude" +:+ Fmt.nl
  +:+ "    FROM `basedosdados.br_ibge_censo_2022.cadastro_enderecos`" +:+ Fmt.nl
  +:+ "    WHERE cep IS NOT NULL " +:+ Fmt.nl
  +:+ "      AND latitude IS NOT NULL " +:+ Fmt.nl
  +:+ "      AND longitude IS NOT NULL" +:+ Fmt.nl
  +:+ "    ".

Definition all_count_query : string :=
  Fmt.nl
  +:+ "        SELECT COUNT(*) as total_rows" +:+ Fmt.nl
  +:+ "        FROM `basedosdados.br_ibge_censo_2022.cadastro_enderecos`" +:+ Fmt.nl
  +:+ "        WHERE cep IS NOT NULL " +:+ Fmt.nl
  +:+ "          AND latitude IS NOT NULL " +:+ Fmt.nl
  +:+ "          AND longitude IS NOT NULL" +:+ Fmt.nl
  +:+ "        ".

Definition all_output_file : string := "bigquery_all_data.csv".
Definition all_sample_file : string := "bigquery_sample_data.csv".

Definition import_all_bigquery_data : Script (option (DataFrame coord)) :=
  bigquery_Client;;
  try_exception
    (say SaidStartingAll;;
     say SaidMayTakeAWhile;;
     say (SaidDashes 50);;
     say SaidCountingRows;;
     total_rows ← call (query_count env all_count_query);
     say (SaidTotalRows total_rows);;
     (if bool_decide (1000000 < total_rows)
      then say SaidLargeDataset;; say SaidConsiderBatches
      else pass);;
     say SaidExecutingMain;;
     df ← call (client_query env all_query);
     say (SaidImported (length df));;
     say SaidColumns;;
     say SaidMemoryUsage;;
     say SaidFirstRows;;
     say (SaidFrame (head 5 df));;
     say SaidLastRows;;
     say (SaidFrame (tail 5 df));;
     say (SaidSaving all_output_file);;
     call (to_csv env df all_output_file);;
     say (SaidSaved all_output_file);;
     call (to_csv env (head 1000 df) all_sample_file);;
     say (SaidSampleSaved all_sample_file);;
     mret (Some df))
    (fun e =>
       say (SaidError e);;
       say (SaidErrorType e);;
       mret None).

Definition import_all_main : Script unit :=
  say (SaidRule 60);;
  say SaidAllTitle;;
  say (SaidRule 60);;
  (if credentials_set then pass
   else say SaidNoCredentials;; say SaidUsingGcloud);;
  data ← import_all_bigquery_data;
  match data with
  | Some df =>
      say SaidImportCompleted;;
      say (SaidTotalImported (length df));;
      say SaidFilesCreated;;
      say SaidAllDataFile;;
      say SaidSampleDataFile
  | None => say SaidImportFailed
  end.

(** *** [import_bigquery_data.py] *)




(** *** [simple_test.py] and [test_connection.py] *)

(** The test queries: the select clause of the batch query with a
    [LIMIT]. *)
Definition limit_query (limit : Z) : string :=
  select_clause +:+ "LIMIT " +:+ Fmt.str limit +:+ Fmt.nl +:+ "        ".

Definition simple_bigquery_test : Script bool :=
  try_exception
    (say SaidTestingAccess;;
     bigquery_Client;;
     say SaidExecuting;;
     df ← call (client_query env (limit_query 3));
     say (SaidSuccess (length df));;
     say SaidColumnsPlain;;
     say SaidData;;
     say (SaidFrame df);;
     mret true)
    (fun e =>
       say (SaidErrorSpace e);;
       say (SaidErrorType e);;
       mret false).

Definition simple_test_main : Script unit :=
  say SaidSimpleTest;;
  simple_bigquery_test;;
  pass.

Definition test_bigquery_connection : Script bool :=
  try_exception
    (say SaidInitializing;;
     bigquery_Client;;
     say SaidTestingConnection;;
     df ← call (client_query env (limit_query 5));
     say (SaidSuccessCheck (length df));;
     say SaidColumnsPlain;;
     say SaidSampleData;;
     say (SaidFrame (head 5 df));;
     mret true)
    (fun e =>
       say (SaidError e);;
       say SaidTips;;
       say SaidTipAuthenticate;;
       say SaidTipEnableApi;;
       say SaidTipPermissions;;
       mret false).

Definition test_connection_main : Script unit :=
  say SaidTestingBigQuery;;
  test_bigquery_connection;;
  pass.

End OnHost.

End Scripts.

Arguments Said : clear implicits.
Arguments Session : clear implicits.
Arguments Script : clear implicits.

(** ** The slice a query asks for *)

(** The rows an ordered source [src] gives for [LIMIT limit OFFSET offset]. *)
Definition slice {coord : Type} (src : DataFrame coord) (offset limit : Z)
  : DataFrame coord :=
  take (Z.to_nat limit) (drop (Z.to_nat offset) src).

(** ** Sample environments *)

Module Examples.

(** Coordinates in millionths of a degree. *)
Definition row (i : Z) : BatchRow Z :=
  mkRow (Fmt.str (1001000 + i)) (- 23550000 - i) (- 46630000 + i).

Definition src5 : DataFrame Z := row <$> seqZ 0 5.

Definition unavailable : exn := Exception "503 Service Unavailable".

(** A source holding [src], answering the batch queries of size [B]. *)
Definition serve (src : DataFrame Z) (B : Z) (q : string) : Result (DataFrame Z) :=
  match list_find (fun i => batch_query B (i * B) = q)
                  (seqZ 0 (Z.of_nat (length src) + 1)) with
  | Some (_, i) => Returns (slice src (i * B) B)
  | None => Returns []
  end.

Definition writable (path : string) (df : DataFrame Z) : option exn := None.

(** Five rows, everything works. *)
Definition env_ok : Env Z := mkEnv (Returns 5) (serve src5 2) writable.

(** The count query fails. *)
Definition env_no_count : Env Z :=
  mkEnv (Raises unavailable) (serve src5 2) writable.

(** The query of the second batch (offset 2) fails. *)
Definition env_second_fails : Env Z :=
  mkEnv (Returns 5)
        (fun q => if decide (q = batch_query 2 2) then Raises unavailable
                  else serve src5 2 q)
        writable.

(** The count says five rows, the source holds two of them. *)
Definition env_short : Env Z := mkEnv (Returns 5) (serve (take 2 src5) 2) writable.

(** Every batch query fails. *)
Definition env_all_fail : Env Z :=
  mkEnv (Returns 5) (fun _ => Raises unavailable) writable.


(** Nothing on disk, nothing logged. *)
Definition fresh : State Z := mkState ∅ ∅ [] [] [].

(** The state a successful export of [src5] leaves. *)
Definition exported : State Z := (batch_import_bigquery_data env_ok 2 fresh).2.


(** A user with credentials who answers [3], with blanks around it. *)
Definition host_three : Host :=
  mkHost {[ "GOOGLE_APPLICATION_CREDENTIALS" := "/home/user/key.json" ]}
         (Typed (literal " 3 ")) None.


(** A host on which the client cannot be built. *)
Definition host_no_client : Host :=
  mkHost ∅ (Typed (literal "2")) (Some (Exception "DefaultCredentialsError")).

(** A session that starts on an empty disk. *)
Definition start : Session Z := mkSession fresh [].



End Examples.

(** ** Properties

    First the reading of a run off the two collaborators (what each
    iteration does, what the loop and the whole run leave), then the
    lemmas that tie the program to that reading, then the properties of
    the specification. *)

Section Theory.

Context {coord : Type} (env : Env coord).
Implicit Types (s : State coord) (df src : DataFrame coord).

(** *** What a log says

    The batch queries, the files written, the files read and the batch
    errors printed, each in the order of the log. *)
Definition queries_of (t : list (Event coord)) : list string :=
  omap (fun ev => match ev with EvQuery q => Some q | _ => None end) t.

Definition writes_of (t : list (Event coord)) : list (string * DataFrame coord) :=
  omap (fun ev => match ev with EvToCsv p df => Some (p, df) | _ => None end) t.

Definition reads_of (t : list (Event coord)) : list string :=
  omap (fun ev => match ev with EvReadCsv p => Some p | _ => None end) t.

Definition errors_of (t : list (Event coord)) : list (Z * exn) :=
  omap (fun ev => match ev with
                  | EvPrint (MsgBatchError k e) => Some (k, e)
                  | _ => None
                  end) t.

(** *** One iteration of the loop, read off the collaborators

    What becomes of batch [i]: its query comes back empty and the loop
    stops, or the query or the write raises and the batch is skipped, or
    its rows are written and kept. *)
Inductive verdict :=
  | Stop
  | Fail (e : exn)
  | Keep (df : DataFrame coord).

Definition verdict_of (B i : Z) : verdict :=
  match src_query env (batch_query B (i * B)) with
  | Raises e => Fail e
  | Returns df =>
      if bool_decide (length df = 0%nat) then Stop
      else match fs_write env (batch_filename (i + 1) (length df)) df with
           | Some e => Fail e
           | None => Keep df
           end
  end.

(** What iteration [i] adds to the log. *)
Definition batch_events (R B n i : Z) : list (Event coord) :=
  let offset := i * B in
  EvPrint (MsgProcessing (i + 1) n offset (Z.min (offset + B) R))
  :: EvQuery (batch_query B offset)
  :: match verdict_of B i with
     | Stop => [EvPrint (MsgZeroRows (i + 1))]
     | Fail e => [EvPrint (MsgBatchError (i + 1) e)]
     | Keep df =>
         let filename := batch_filename (i + 1) (length df) in
         [EvToCsv filename df;
          EvPrint (MsgBatchCompleted (i + 1));
          EvPrint (MsgBatchRows (length df));
          EvPrint MsgBatchTime;
          EvPrint (MsgBatchSaved filename);
          EvPrint (MsgProgress (offset + Z.of_nat (length df)) R)]
     end.

(** The state after iteration [i]. *)
Definition batch_state (R B n i : Z) s : State coord :=
  match verdict_of B i with
  | Keep df =>
      mkState (<[batch_filename (i + 1) (length df) := df]> (files s)) (dirs s)
              (trace s ++ batch_events R B n i) (all_data s ++ [df])
              (sample_data s)
  | _ =>
      mkState (files s) (dirs s) (trace s ++ batch_events R B n i)
              (all_data s) (sample_data s)
  end.

(** The indices of [l] the loop reaches: all up to the first empty batch. *)
Fixpoint attempted (B : Z) (l : list Z) : list Z :=
  match l with
  | [] => []
  | i :: l' =>
      i :: match verdict_of B i with
           | Stop => []
           | _ => attempted B l'
           end
  end.

(** The batches of [l] that are written and kept, with their indices. *)
Fixpoint kept (B : Z) (l : list Z) : list (Z * DataFrame coord) :=
  match l with
  | [] => []
  | i :: l' =>
      match verdict_of B i with
      | Stop => []
      | Fail _ => kept B l'
      | Keep df => (i, df) :: kept B l'
      end
  end.

(** The batches of [l] that raise, with their errors. *)
Fixpoint failed (B : Z) (l : list Z) : list (Z * exn) :=
  match l with
  | [] => []
  | i :: l' =>
      match verdict_of B i with
      | Stop => []
      | Fail e => (i, e) :: failed B l'
      | Keep _ => failed B l'
      end
  end.

(** The file a kept batch is written to, with its table. *)
Definition batch_write (k : Z * DataFrame coord) : string * DataFrame coord :=
  (batch_filename (k.1 + 1) (length k.2), k.2).

(** A file system after one more successful write. *)
Definition store (m : gmap string (DataFrame coord))
           (w : string * DataFrame coord) : gmap string (DataFrame coord) :=
  <[w.1 := w.2]> m.

(** The state after the loop over [l]. *)
Fixpoint loop_state (R B n : Z) (l : list Z) s : State coord :=
  match l with
  | [] => s
  | i :: l' =>
      match verdict_of B i with
      | Stop => batch_state R B n i s
      | _ => loop_state R B n l' (batch_state R B n i s)
      end
  end.

(** What the loop over [l] adds to the log. *)
Fixpoint loop_events (R B n : Z) (l : list Z) : list (Event coord) :=
  match l with
  | [] => []
  | i :: l' =>
      batch_events R B n i
      ++ match verdict_of B i with
         | Stop => []
         | _ => loop_events R B n l'
         end
  end.

(** *** The whole export

    The combination step on the accumulated batches [acc]: the exception
    it raises if any, what it logs, and the files it leaves. *)
Definition combine_outcome (acc : list (DataFrame coord)) : option exn :=
  match acc with
  | [] => None
  | _ :: _ => fs_write env combined_filename (concat acc)
  end.

Definition combine_events (acc : list (DataFrame coord)) : list (Event coord) :=
  match acc with
  | [] => []
  | _ :: _ =>
      EvPrint MsgCreatingCombined
      :: match fs_write env combined_filename (concat acc) with
         | Some _ => []
         | None =>
             [EvToCsv combined_filename (concat acc);
              EvPrint (MsgCombinedSaved combined_filename);
              EvPrint (MsgCombinedRows (length (concat acc)))]
         end
  end.

Definition combine_files (acc : list (DataFrame coord))
           (m : gmap string (DataFrame coord)) : gmap string (DataFrame coord) :=
  match acc with
  | [] => m
  | _ :: _ =>
      match fs_write env combined_filename (concat acc) with
      | Some _ => m
      | None => <[combined_filename := concat acc]> m
      end
  end.

(** [os.path.exists(OUTPUT_DIR)] in state [s]. *)
Definition present_before s : bool :=
  bool_decide (OUTPUT_DIR ∈ dirs s \/ is_Some (files s !! OUTPUT_DIR)).

(** What a run logs before the loop, and between the loop and the
    combination step. *)
Definition prologue s (R B : Z) : list (Event coord) :=
  [EvPrint MsgCounting; EvCount count_query; EvPrint (MsgTotalRows R);
   EvPrint (MsgPlan (num_batches R B) B)]
  ++ (if present_before s then [] else [EvPrint (MsgCreatedDir OUTPUT_DIR)]).

Definition closing : list (Event coord) :=
  [EvPrint MsgProcessingCompleted; EvPrint MsgTotalTime;
   EvPrint (MsgBatchFilesIn OUTPUT_DIR)].

(** The batches a run keeps, in the order of the loop. *)
Definition kept_batches (R B : Z) : list (Z * DataFrame coord) :=
  kept B (range (num_batches R B)).

(** What a run whose count query gives [R] adds to the log. *)
Definition run_events s (R B : Z) : list (Event coord) :=
  prologue s R B
  ++ loop_events R B (num_batches R B) (range (num_batches R B))
  ++ closing
  ++ combine_events (kept_batches R B).*2.

(** State [s] with [evs] added to its log. *)
Definition log s (evs : list (Event coord)) : State coord :=
  mkState (files s) (dirs s) (trace s ++ evs) (all_data s) (sample_data s).

(** The events of [s'] that are not yet in [s]. *)
Definition added s s' : list (Event coord) := drop (length (trace s)) (trace s').

(** No batch of [l] comes back empty. *)
Definition none_empty (B : Z) (l : list Z) : Prop :=
  forall i, i ∈ l -> src_query env (batch_query B (i * B)) <> Returns [].

(** Batch [i] fails with [e]: its query raises [e], or its query gives
    rows and writing its file raises [e]. *)
Definition batch_fails (B i : Z) (e : exn) : Prop :=
  src_query env (batch_query B (i * B)) = Raises e
  \/ exists df, src_query env (batch_query B (i * B)) = Returns df
                /\ df <> []
                /\ fs_write env (batch_filename (i + 1) (length df)) df = Some e.

(** Batch [i] succeeds with the rows [df]. *)
Definition batch_succeeds (B i : Z) (df : DataFrame coord) : Prop :=
  src_query env (batch_query B (i * B)) = Returns df
  /\ df <> []
  /\ fs_write env (batch_filename (i + 1) (length df)) df = None.



(** *** The sampling pass *)

(** The names [os.listdir(OUTPUT_DIR)] gives in state [s]. *)
Definition listing s : list string :=
  omap (entry_of OUTPUT_DIR) (map_to_list (files s)).*1.

(** [batch_files]: the [.csv] names of the batch directory, sorted. *)
Definition csv_files s : list string :=
  sorted (filter (fun f => Fmt.endswith f ".csv" = true) (listing s)).

(** The table in the batch file named [f]. *)
Definition content s (f : string) : DataFrame coord :=
  match files s !! os_path_join OUTPUT_DIR f with
  | Some df => df
  | None => []
  end.

(** The files the loop reads from the candidates [l], when [have] is
    what it has accumulated before. *)
Fixpoint read_files (sample_size : Z) s (have : list (DataFrame coord))
         (l : list string) : list string :=
  match l with
  | [] => []
  | f :: l' =>
      f :: if bool_decide
                (sample_size <= Z.of_nat (length (concat (have ++ [content s f]))))
           then []
           else read_files sample_size s (have ++ [content s f]) l'
  end.

(** The state after the loop over the candidate files [l], in a file
    system that is the one of [s0]. *)
Definition read_state (ss : Z) s0 (l : list string) s : State coord :=
  mkState (files s) (dirs s)
          (trace s ++ (EvReadCsv ∘ os_path_join OUTPUT_DIR
                         <$> read_files ss s0 (sample_data s) l))
          (all_data s)
          (sample_data s ++ (content s0 <$> read_files ss s0 (sample_data s) l)).

(** The files a sampling pass reads, and the sample it builds. *)
Definition sample_read (ss : Z) s : list string :=
  read_files ss s [] (take 5 (csv_files s)).

(** The sample: [head(sample_size)] of the files read, concatenated. *)
Definition sampled (ss : Z) s : DataFrame coord :=
  head ss (concat (content s <$> sample_read ss s)).

(** What a sampling pass adds to the log, what it returns or raises, and
    the files it leaves. *)
Definition sample_events (ss : Z) s : list (Event coord) :=
  if present_before s then
    EvPrint MsgCreatingSample
    :: (EvReadCsv ∘ os_path_join OUTPUT_DIR <$> sample_read ss s)
    ++ match sample_read ss s with
       | [] => [EvPrint MsgNoDataInBatches]
       | _ :: _ =>
           match fs_write env sample_filename (sampled ss s) with
           | Some _ => []
           | None =>
               [EvToCsv sample_filename (sampled ss s);
                EvPrint (MsgSampleCreated sample_filename);
                EvPrint (MsgSampleRows (length (sampled ss s)))]
           end
       end
  else [EvPrint MsgNoBatchData].

Definition sample_outcome (ss : Z) s : Result unit :=
  if present_before s then
    match sample_read ss s with
    | [] => Returns tt
    | _ :: _ =>
        match fs_write env sample_filename (sampled ss s) with
        | Some e => Raises e
        | None => Returns tt
        end
    end
  else Returns tt.

Definition sample_files (ss : Z) s : gmap string (DataFrame coord) :=
  if present_before s then
    match sample_read ss s with
    | [] => files s
    | _ :: _ =>
        match fs_write env sample_filename (sampled ss s) with
        | Some _ => files s
        | None => <[sample_filename := sampled ss s]> (files s)
        end
    end
  else files s.

(** *** Further readings of a log *)

(** The batch numbers at which the loop printed that it stops. *)
Definition stops_of (t : list (Event coord)) : list Z :=
  omap (fun ev => match ev with
                  | EvPrint (MsgZeroRows k) => Some k
                  | _ => None
                  end) t.

(** The batch files among the files written. *)
Definition batch_writes_of (t : list (Event coord))
  : list (string * DataFrame coord) :=
  filter (fun w => w.1 <> combined_filename) (writes_of t).

(** *** The entry point of the batch script, read off the host *)

(** What the script prints up to and with the prompt. *)
Definition banner (h : Host) : list (Said coord) :=
  [SaidRule 70; SaidBatchTitle; SaidRule 70]
  ++ (if credentials_set h then [] else [SaidNoCredentials; SaidUsingGcloud])
  ++ [SaidOptions; SaidSmallBatches; SaidMediumBatches; SaidLargeBatches;
      SaidSelectBatchSize].

(** The batch size for a stripped answer, and what choosing it prints. *)
Definition chosen (choice : text) : Z :=
  if decide (choice = literal "1") then 50000
  else if decide (choice = literal "3") then 250000
  else 100000.

Definition is_option (choice : text) : bool :=
  bool_decide (choice = literal "1" \/ choice = literal "2"
               \/ choice = literal "3").

Definition choice_lines (choice : text) : list (Said coord) :=
  (if is_option choice then [] else [SaidDefaultBatchSize 100000])
  ++ [SaidStartingBatchImport (chosen choice)].

(** The last lines of a script that went through. *)
Definition all_done : list (Said coord) :=
  [SaidAllDone OUTPUT_DIR; SaidFilesCreated; SaidIndividualFilesIn OUTPUT_DIR;
   SaidCombinedFile; SaidSampleFile].

(** Session [σ] with the lines [ls] printed and the state [s]. *)
Definition session_with (σ : Session coord) (s : State coord)
           (ls : list (Said coord)) : Session coord :=
  mkSession s (console σ ++ ls).

(** The lines of [σ'] that are not yet in [σ]. *)
Definition said (σ σ' : Session coord) : list (Said coord) :=
  drop (length (console σ)) (console σ').

(** How the part of the batch script after the prompt ends: with the
    state it leaves and its last lines. *)
Definition batch_main_end (h : Host) (s : State coord)
  : State coord * list (Said coord) :=
  match keyboard h with
  | CtrlC => (s, [SaidInterrupted; SaidPartialFiles])
  | EndOfFile => (s, [SaidUnexpectedError EOFError])
  | Typed line =>
      let b := chosen (strip line) in
      match client_init h with
      | Some e => (s, choice_lines (strip line) ++ [SaidUnexpectedError e])
      | None =>
          let r1 := batch_import_bigquery_data env b s in
          match r1.1 with
          | Raises e =>
              (r1.2, choice_lines (strip line) ++ [SaidUnexpectedError e])
          | Returns _ =>
              let r2 := create_sample_from_batches env default_sample_size r1.2 in
              match r2.1 with
              | Raises e =>
                  (r2.2, choice_lines (strip line) ++ [SaidUnexpectedError e])
              | Returns _ => (r2.2, choice_lines (strip line) ++ all_done)
              end
          end
      end
  end.

(** The session the batch script leaves. *)
Definition batch_main_session (h : Host) (σ : Session coord) : Session coord :=
  session_with σ (batch_main_end h (disk σ)).1
               (banner h ++ (batch_main_end h (disk σ)).2).

(** *** The names of the batch files *)

(** The name of a batch file inside the batch directory. *)
Definition batch_entry (number : Z) (rows : nat) : string :=
  "batch_" +:+ Fmt.d04 number +:+ "_" +:+ Fmt.thousands (Z.of_nat rows)
  +:+ "_rows.csv".

(** Every character of [s] satisfies [P]. *)
Fixpoint all_chars (P : ascii -> bool) (s : string) : bool :=
  match s with
  | EmptyString => true
  | String c s' => P c && all_chars P s'
  end.

Definition is_digit (c : ascii) : bool :=
  bool_decide (48 <= N_of_ascii c <= 57)%N.

Definition nonzero_digit (c : ascii) : bool :=
  bool_decide (49 <= N_of_ascii c <= 57)%N.





(** *** The one-shot scripts, read off the host and the collaborators *)

(** State [s] after the calls [evs]: the log extended, the writes applied. *)
Definition applied s (evs : list (Event coord)) : State coord :=
  mkState (foldl store (files s) (writes_of evs)) (dirs s) (trace s ++ evs)
          (all_data s) (sample_data s).

(** How a function of a script ends: its outcome, the calls it made and
    the lines it printed. *)
Definition Run (A : Type) : Type :=
  (Outcome A * list (Event coord) * list (Said coord))%type.

(** The session a run leaves. *)
Definition after {A} (σ : Session coord) (r : Run A) : Outcome A * Session coord :=
  (r.1.1, mkSession (applied (disk σ) r.1.2) (console σ ++ r.2)).

Definition import_all_run (h : Host) : Run (option (DataFrame coord)) :=
  let intro := [SaidStartingAll; SaidMayTakeAWhile; SaidDashes 50;
                SaidCountingRows] in
  let failed e := [SaidError e; SaidErrorType e] in
  match client_init h with
  | Some e => (Thrown e, [], [])
  | None =>
      match src_count env with
      | Raises e => (Done None, [EvCount all_count_query], intro ++ failed e)
      | Returns R =>
          let counted :=
            intro ++ [SaidTotalRows R]
            ++ (if bool_decide (1000000 < R)
                then [SaidLargeDataset; SaidConsiderBatches] else [])
            ++ [SaidExecutingMain] in
          let asked := [EvCount all_count_query; EvQuery all_query] in
          match src_query env all_query with
          | Raises e => (Done None, asked, counted ++ failed e)
          | Returns df =>
              let shown :=
                counted
                ++ [SaidImported (length df); SaidColumns; SaidMemoryUsage;
                    SaidFirstRows; SaidFrame (head 5 df);
                    SaidLastRows; SaidFrame (tail 5 df);
                    SaidSaving all_output_file] in
              match fs_write env all_output_file df with
              | Some e => (Done None, asked, shown ++ failed e)
              | None =>
                  match fs_write env all_sample_file (head 1000 df) with
                  | Some e =>
                      (Done None, asked ++ [EvToCsv all_output_file df],
                       shown ++ [SaidSaved all_output_file] ++ failed e)
                  | None =>
                      (Done (Some df),
                       asked ++ [EvToCsv all_output_file df;
                                 EvToCsv all_sample_file (head 1000 df)],
                       shown ++ [SaidSaved all_output_file;
                                 SaidSampleSaved all_sample_file])
                  end
              end
          end
      end
  end.


Definition simple_test_run (h : Host) : Run bool :=
  let failed e := [SaidErrorSpace e; SaidErrorType e] in
  match client_init h with
  | Some e => (Done false, [], [SaidTestingAccess] ++ failed e)
  | None =>
      match src_query env (limit_query 3) with
      | Raises e =>
          (Done false, [EvQuery (limit_query 3)],
           [SaidTestingAccess; SaidExecuting] ++ failed e)
      | Returns df =>
          (Done true, [EvQuery (limit_query 3)],
           [SaidTestingAccess; SaidExecuting; SaidSuccess (length df);
            SaidColumnsPlain; SaidData; SaidFrame df])
      end
  end.

Definition test_connection_run (h : Host) : Run bool :=
  let failed e := [SaidError e; SaidTips; SaidTipAuthenticate; SaidTipEnableApi;
                   SaidTipPermissions] in
  match client_init h with
  | Some e => (Done false, [], [SaidInitializing] ++ failed e)
  | None =>
      match src_query env (limit_query 5) with
      | Raises e =>
          (Done false, [EvQuery (limit_query 5)],
           [SaidInitializing; SaidTestingConnection] ++ failed e)
      | Returns df =>
          (Done true, [EvQuery (limit_query 5)],
           [SaidInitializing; SaidTestingConnection; SaidSuccessCheck (length df);
            SaidColumnsPlain; SaidSampleData; SaidFrame (head 5 df)])
      end
  end.

Definition import_all_main_run (h : Host) : Run unit :=
  let top :=
    [SaidRule 60; SaidAllTitle; SaidRule 60]
    ++ (if credentials_set h then [] else [SaidNoCredentials; SaidUsingGcloud]) in
  match import_all_run h with
  | (Done (Some df), evs, ls) =>
      (Done tt, evs,
       top ++ ls ++ [SaidImportCompleted; SaidTotalImported (length df);
                     SaidFilesCreated; SaidAllDataFile; SaidSampleDataFile])
  | (Done None, evs, ls) => (Done tt, evs, top ++ ls ++ [SaidImportFailed])
  | (Thrown e, evs, ls) => (Thrown e, evs, top ++ ls)
  | (Interrupted, evs, ls) => (Interrupted, evs, top ++ ls)
  end.

(** *** The program against its reading *)

Lemma process_batch_eq R B n i s :
  process_batch env R B n i s =
    (Returns (match verdict_of B i with Stop => Break | _ => Continue end),
     batch_state R B n i s).
Proof.
  unfold process_batch, batch_state, batch_events, verdict_of.
  cbv [try_except mbind M_bind mret M_ret print emit client_query to_csv
       get_all_data set_all_data]. simpl.
  destruct (src_query env _) as [df|e]; simpl.
  - case_bool_decide; simpl.
    + rewrite <- !app_assoc. reflexivity.
    + destruct (fs_write env _ df); simpl; rewrite <- !app_assoc; reflexivity.
  - rewrite <- !app_assoc. reflexivity.
Qed.

Lemma for_in_process_batch R B n l s :
  for_in l (process_batch env R B n) s = (Returns tt, loop_state R B n l s).
Proof.
  revert s. induction l as [|i l IH]; intros s; [reflexivity|].
  simpl. unfold mbind, M_bind at 1. rewrite process_batch_eq.
  destruct (verdict_of B i); [reflexivity| apply IH | apply IH].
Qed.

Lemma batch_state_trace R B n i s :
  trace (batch_state R B n i s) = trace s ++ batch_events R B n i.
Proof. unfold batch_state. by destruct (verdict_of B i). Qed.

Lemma batch_state_frame R B n i s :
  dirs (batch_state R B n i s) = dirs s
  /\ sample_data (batch_state R B n i s) = sample_data s.
Proof. unfold batch_state. by destruct (verdict_of B i). Qed.

Lemma batch_state_all_data R B n i s :
  all_data (batch_state R B n i s)
  = all_data s ++ match verdict_of B i with Keep df => [df] | _ => [] end.
Proof.
  unfold batch_state. destruct (verdict_of B i); simpl; by rewrite ?app_nil_r.
Qed.

Lemma batch_state_files R B n i s :
  files (batch_state R B n i s)
  = match verdict_of B i with
    | Keep df => store (files s) (batch_write (i, df))
    | _ => files s
    end.
Proof. unfold batch_state. by destruct (verdict_of B i). Qed.

Lemma loop_state_frame R B n l s :
  dirs (loop_state R B n l s) = dirs s
  /\ sample_data (loop_state R B n l s) = sample_data s.
Proof.
  revert s. induction l as [|i l IH]; intros s; [done|].
  cbn [loop_state]. destruct (batch_state_frame R B n i s) as [Hd Hs].
  destruct (verdict_of B i); [done|..];
    destruct (IH (batch_state R B n i s)) as [-> ->]; done.
Qed.

Lemma loop_state_trace R B n l s :
  trace (loop_state R B n l s) = trace s ++ loop_events R B n l.
Proof.
  revert s. induction l as [|i l IH]; intros s; cbn [loop_state loop_events].
  - by rewrite app_nil_r.
  - destruct (verdict_of B i);
      rewrite ?IH, batch_state_trace, ?app_nil_r, ?(assoc_L (++)); done.
Qed.

Lemma loop_state_all_data R B n l s :
  all_data (loop_state R B n l s) = all_data s ++ (kept B l).*2.
Proof.
  revert s. induction l as [|i l IH]; intros s; cbn [loop_state kept].
  - by rewrite app_nil_r.
  - destruct (verdict_of B i) eqn:Hv;
      rewrite ?IH, batch_state_all_data, Hv, ?fmap_cons;
      rewrite ?app_nil_r, <- ?(assoc_L (++)); done.
Qed.

Lemma loop_state_files R B n l s :
  files (loop_state R B n l s)
  = foldl store (files s) (batch_write <$> kept B l).
Proof.
  revert s. induction l as [|i l IH]; intros s; cbn [loop_state kept]; [done|].
  destruct (verdict_of B i) eqn:Hv;
    rewrite ?IH, batch_state_files, Hv; reflexivity.
Qed.

Lemma queries_of_app t1 t2 : queries_of (t1 ++ t2) = queries_of t1 ++ queries_of t2.
Proof. apply omap_app. Qed.
Lemma writes_of_app t1 t2 : writes_of (t1 ++ t2) = writes_of t1 ++ writes_of t2.
Proof. apply omap_app. Qed.
Lemma errors_of_app t1 t2 : errors_of (t1 ++ t2) = errors_of t1 ++ errors_of t2.
Proof. apply omap_app. Qed.
Lemma reads_of_app t1 t2 : reads_of (t1 ++ t2) = reads_of t1 ++ reads_of t2.
Proof. apply omap_app. Qed.

Lemma queries_of_batch R B n i :
  queries_of (batch_events R B n i) = [batch_query B (i * B)].
Proof. unfold batch_events. by destruct (verdict_of B i). Qed.

Lemma writes_of_batch R B n i :
  writes_of (batch_events R B n i)
  = match verdict_of B i with Keep df => [batch_write (i, df)] | _ => [] end.
Proof. unfold batch_events. by destruct (verdict_of B i). Qed.

Lemma errors_of_batch R B n i :
  errors_of (batch_events R B n i)
  = match verdict_of B i with Fail e => [(i + 1, e)] | _ => [] end.
Proof. unfold batch_events. by destruct (verdict_of B i). Qed.

Lemma reads_of_batch R B n i : reads_of (batch_events R B n i) = [].
Proof. unfold batch_events. by destruct (verdict_of B i). Qed.

Lemma queries_of_loop R B n l :
  queries_of (loop_events R B n l)
  = (fun i => batch_query B (i * B)) <$> attempted B l.
Proof.
  induction l as [|i l IH]; cbn [loop_events attempted]; [done|].
  rewrite queries_of_app, queries_of_batch, fmap_cons.
  destruct (verdict_of B i); rewrite ?IH; done.
Qed.

Lemma writes_of_loop R B n l :
  writes_of (loop_events R B n l) = batch_write <$> kept B l.
Proof.
  induction l as [|i l IH]; cbn [loop_events kept]; [done|].
  rewrite writes_of_app, writes_of_batch.
  destruct (verdict_of B i); rewrite ?IH; done.
Qed.

Lemma errors_of_loop R B n l :
  errors_of (loop_events R B n l)
  = (fun k => (k.1 + 1, k.2)) <$> failed B l.
Proof.
  induction l as [|i l IH]; cbn [loop_events failed]; [done|].
  rewrite errors_of_app, errors_of_batch.
  destruct (verdict_of B i); rewrite ?IH; done.
Qed.

Lemma reads_of_loop R B n l : reads_of (loop_events R B n l) = [].
Proof.
  induction l as [|i l IH]; cbn [loop_events]; [done|].
  rewrite reads_of_app, reads_of_batch.
  destruct (verdict_of B i); rewrite ?IH; done.
Qed.

Lemma combine_eq s :
  combine env s =
    (match combine_outcome (all_data s) with
     | Some e => Raises e
     | None => Returns tt
     end,
     mkState (combine_files (all_data s) (files s)) (dirs s)
             (trace s ++ combine_events (all_data s)) (all_data s)
             (sample_data s)).
Proof.
  unfold combine, combine_outcome, combine_events, combine_files.
  cbv [mbind M_bind mret M_ret skip print emit get_all_data pd_concat to_csv].
  destruct s as [fs ds tr acc sd]; cbn [all_data files dirs trace sample_data].
  destruct acc as [|df acc]; [by rewrite app_nil_r|].
  destruct (fs_write env combined_filename (concat (df :: acc)));
    cbn [all_data files dirs trace sample_data];
    rewrite <- ?(assoc_L (++)); reflexivity.
Qed.

Lemma bind_returns {A C} (m : M A) (f : A -> M C) s a s' :
  m s = (Returns a, s') -> (m ≫= f) s = f a s'.
Proof. unfold mbind, M_bind. by intros ->. Qed.

Lemma bind_raises {A C} (m : M A) (f : A -> M C) s e s' :
  m s = (Raises e, s') -> (m ≫= f) s = (Raises e, s').
Proof. unfold mbind, M_bind. by intros ->. Qed.

Lemma print_eq m s : print m s = (Returns tt, log s [EvPrint m]).
Proof. reflexivity. Qed.

Lemma query_count_eq s R sql :
  src_count env = Returns R ->
  query_count env sql s = (Returns R, log s [EvCount sql]).
Proof. unfold query_count. simpl. by intros ->. Qed.

Lemma log_log s e1 e2 : log (log s e1) e2 = log s (e1 ++ e2).
Proof. unfold log; simpl. by rewrite (assoc_L (++)). Qed.

Lemma ensure_output_dir_eq s :
  ensure_output_dir s =
    (Returns tt,
     mkState (files s)
             (if present_before s then dirs s else {[OUTPUT_DIR]} ∪ dirs s)
             (trace s ++ if present_before s then []
                         else [EvPrint (MsgCreatedDir OUTPUT_DIR)])
             (all_data s) (sample_data s)).
Proof.
  unfold ensure_output_dir, present_before.
  cbv [mbind M_bind mret M_ret skip os_path_exists os_makedirs print emit].
  case_bool_decide; cbn [all_data files dirs trace sample_data];
    [rewrite app_nil_r; by destruct s | done].
Qed.

Lemma run_count_raises B s e :
  src_count env = Raises e ->
  batch_import_bigquery_data env B s =
    (Raises e,
     mkState (files s) (dirs s)
             (trace s ++ [EvPrint MsgCounting; EvCount count_query])
             (all_data s) (sample_data s)).
Proof.
  intros Hc. unfold batch_import_bigquery_data.
  cbv [mbind M_bind mret M_ret print emit query_count].
  cbn [all_data files dirs trace sample_data]. rewrite Hc.
  by rewrite <- (assoc_L (++)).
Qed.

Lemma run_count_returns B s R :
  src_count env = Returns R ->
  batch_import_bigquery_data env B s =
    (match combine_outcome (kept_batches R B).*2 with
     | Some e => Raises e
     | None => Returns true
     end,
     mkState
       (combine_files (kept_batches R B).*2
          (foldl store (files s) (batch_write <$> kept_batches R B)))
       (if present_before s then dirs s else {[OUTPUT_DIR]} ∪ dirs s)
       (trace s ++ run_events s R B)
       (kept_batches R B).*2
       (sample_data s)).
Proof.
  intros Hc. unfold batch_import_bigquery_data.
  erewrite bind_returns by apply print_eq.
  erewrite bind_returns by apply (query_count_eq _ _ _ Hc).
  erewrite bind_returns by apply print_eq.
  erewrite bind_returns by apply print_eq.
  erewrite bind_returns by apply ensure_output_dir_eq.
  erewrite bind_returns by reflexivity.
  erewrite bind_returns by apply for_in_process_batch.
  erewrite bind_returns by apply print_eq.
  erewrite bind_returns by apply print_eq.
  erewrite bind_returns by apply print_eq.
  unfold mbind, M_bind. rewrite combine_eq.
  match goal with
  | |- context [loop_state ?a ?b ?c ?d ?s0] =>
      pose proof (loop_state_all_data a b c d s0) as Ha;
      pose proof (loop_state_files a b c d s0) as Hf;
      pose proof (loop_state_trace a b c d s0) as Ht;
      destruct (loop_state_frame a b c d s0) as [Hd Hs];
      set (L := loop_state a b c d s0) in *
  end.
  unfold present_before in *.
  cbn [log all_data files dirs trace sample_data] in *.
  rewrite Ha, Hf, Ht, Hd, Hs. fold (kept_batches R B).
  unfold run_events, prologue, closing, present_before.
  assert (Htr : forall X Y : list (Event coord), X = Y -> forall r f d a sd,
            (r, mkState f d X a sd) = (r : Result bool, mkState f d Y a sd))
    by (by intros ?? ->).
  destruct (combine_outcome _); apply Htr;
    rewrite <- !(assoc_L (++)); reflexivity.
Qed.

Lemma added_app s s' evs : trace s' = trace s ++ evs -> added s s' = evs.
Proof. unfold added. intros ->. by rewrite drop_app_length. Qed.

Lemma verdict_stop_iff B i :
  verdict_of B i = Stop <-> src_query env (batch_query B (i * B)) = Returns [].
Proof.
  unfold verdict_of. destruct (src_query env _) as [df|e]; [|done].
  case_bool_decide as Hl.
  - apply length_zero_iff_nil in Hl as ->. done.
  - split; [by destruct (fs_write env _ df)|].
    intros [= ->]. done.
Qed.

Lemma verdict_fail_iff B i e :
  verdict_of B i = Fail e <->
  src_query env (batch_query B (i * B)) = Raises e
  \/ exists df, src_query env (batch_query B (i * B)) = Returns df
                /\ df <> []
                /\ fs_write env (batch_filename (i + 1) (length df)) df = Some e.
Proof.
  unfold verdict_of. destruct (src_query env _) as [df|e'].
  - case_bool_decide as Hl.
    + apply length_zero_iff_nil in Hl as ->. split; [done|].
      intros [|(df & [= <-] & ? & _)]; done.
    + assert (df <> []) by (by intros ->).
      destruct (fs_write env _ df) as [e'|] eqn:Hw.
      * split.
        -- intros [= ->]. right. by exists df.
        -- intros [|(df' & [= <-] & _ & Hw')]; [done|]. congruence.
      * split; [done|].
        intros [|(df' & [= <-] & _ & Hw')]; [done|]. congruence.
  - split.
    + intros [= ->]. by left.
    + intros [[= ->]|(df' & ? & _)]; done.
Qed.

Lemma verdict_keep_iff B i df :
  verdict_of B i = Keep df <->
  src_query env (batch_query B (i * B)) = Returns df
  /\ df <> []
  /\ fs_write env (batch_filename (i + 1) (length df)) df = None.
Proof.
  unfold verdict_of. destruct (src_query env _) as [df'|e'].
  - case_bool_decide as Hl.
    + apply length_zero_iff_nil in Hl as ->. split; [done|].
      intros ([= <-] & ? & _); done.
    + assert (df' <> []) by (by intros ->).
      destruct (fs_write env _ df') as [e'|] eqn:Hw.
      * split; [done|]. intros ([= <-] & _ & Hw'). congruence.
      * split.
        -- intros [= ->]. done.
        -- intros ([= <-] & _ & _). done.
  - split; [done|]. intros (? & _); done.
Qed.

Lemma attempted_app B l1 l2 :
  none_empty B l1 -> attempted B (l1 ++ l2) = l1 ++ attempted B l2.
Proof.
  induction l1 as [|i l1 IH]; intros Hne; [done|].
  cbn [app attempted].
  assert (verdict_of B i <> Stop) as Hi.
  { rewrite verdict_stop_iff. apply Hne. by left. }
  rewrite IH by (intros j Hj; apply Hne; by right).
  by destruct (verdict_of B i).
Qed.

Lemma kept_app B l1 l2 :
  none_empty B l1 -> kept B (l1 ++ l2) = kept B l1 ++ kept B l2.
Proof.
  induction l1 as [|i l1 IH]; intros Hne; [done|].
  cbn [app kept].
  assert (verdict_of B i <> Stop) as Hi.
  { rewrite verdict_stop_iff. apply Hne. by left. }
  rewrite IH by (intros j Hj; apply Hne; by right).
  by destruct (verdict_of B i).
Qed.

Lemma failed_app B l1 l2 :
  none_empty B l1 -> failed B (l1 ++ l2) = failed B l1 ++ failed B l2.
Proof.
  induction l1 as [|i l1 IH]; intros Hne; [done|].
  cbn [app failed].
  assert (verdict_of B i <> Stop) as Hi.
  { rewrite verdict_stop_iff. apply Hne. by left. }
  rewrite IH by (intros j Hj; apply Hne; by right).
  by destruct (verdict_of B i).
Qed.

Lemma attempted_prefix B l : attempted B l `prefix_of` l.
Proof.
  induction l as [|i l IH]; [done|]. cbn [attempted].
  destruct (verdict_of B i); [apply prefix_cons, prefix_nil | by apply prefix_cons..].
Qed.

Lemma kept_sublist B l : (kept B l).*1 `sublist_of` l.
Proof.
  induction l as [|i l IH]; [done|]. cbn [kept].
  destruct (verdict_of B i); cbn [fmap list_fmap fst].
  - apply sublist_nil_l.
  - by apply sublist_cons.
  - by apply sublist_skip.
Qed.

Lemma elem_of_kept B l i df :
  (i, df) ∈ kept B l -> i ∈ l /\ verdict_of B i = Keep df.
Proof.
  induction l as [|j l IH]; cbn [kept]; [by intros ?%elem_of_nil|].
  destruct (verdict_of B j) eqn:Hv.
  - by intros ?%elem_of_nil.
  - intros [? ?]%IH. split; [by right|done].
  - intros [[= -> ->]|[? ?]%IH]%elem_of_cons; (split; [|done]); [by left|by right].
Qed.



Lemma run_added_returns B s R :
  src_count env = Returns R ->
  added s (batch_import_bigquery_data env B s).2 = run_events s R B.
Proof. intros Hc. rewrite (run_count_returns _ _ _ Hc). by apply added_app. Qed.

Lemma queries_of_run s R B :
  queries_of (run_events s R B)
  = (fun i => batch_query B (i * B))
      <$> attempted B (range (num_batches R B)).
Proof.
  unfold run_events, prologue, closing.
  rewrite !queries_of_app, queries_of_loop.
  assert (queries_of (combine_events (kept_batches R B).*2) = []) as ->.
  { unfold combine_events. destruct (kept_batches R B).*2; [done|].
    by destruct (fs_write env _ _). }
  destruct (present_before s); cbn; by rewrite app_nil_r.
Qed.

Lemma writes_of_run s R B :
  writes_of (run_events s R B)
  = (batch_write <$> kept_batches R B)
    ++ writes_of (combine_events (kept_batches R B).*2).
Proof.
  unfold run_events, prologue, closing.
  rewrite !writes_of_app, writes_of_loop.
  destruct (present_before s); cbn; done.
Qed.

Lemma errors_of_run s R B :
  errors_of (run_events s R B)
  = (fun k => (k.1 + 1, k.2)) <$> failed B (range (num_batches R B)).
Proof.
  unfold run_events, prologue, closing.
  rewrite !errors_of_app, errors_of_loop.
  assert (errors_of (combine_events (kept_batches R B).*2) = []) as ->.
  { unfold combine_events. destruct (kept_batches R B).*2; [done|].
    by destruct (fs_write env _ _). }
  destruct (present_before s); cbn; by rewrite app_nil_r.
Qed.


(** C8 (fatal count phase).  When the count query raises [e], the export
    raises [e] itself: nothing catches it.  The run has then printed one
    line and issued the count query, and nothing else: no plan, no batch
    query, no file written, no directory created. *)
Theorem C8_count_failure_is_fatal B s e :
  src_count env = Raises e ->
  (batch_import_bigquery_data env B s).1 = Raises e
  /\ added s (batch_import_bigquery_data env B s).2
     = [EvPrint MsgCounting; EvCount count_query]
  /\ files (batch_import_bigquery_data env B s).2 = files s
  /\ dirs (batch_import_bigquery_data env B s).2 = dirs s.
Proof.
  intros Hc. rewrite (run_count_raises _ _ _ Hc). cbn [fst snd files dirs].
  split; [done|split; [|done]]. by apply added_app.
Qed.


Lemma kept_all B l (f : Z -> DataFrame coord) :
  (forall i, i ∈ l -> verdict_of B i = Keep (f i)) ->
  kept B l = (fun i => (i, f i)) <$> l.
Proof.
  induction l as [|i l IH]; intros H; [done|]. cbn [kept].
  rewrite (H i) by (by left). rewrite IH by (intros; apply H; by right). done.
Qed.





Lemma range_split n j :
  0 <= j < n -> range n = seqZ 0 j ++ j :: seqZ (j + 1) (n - j - 1).
Proof.
  intros Hj. unfold range.
  replace n with (j + (n - j)) at 1 by lia.
  rewrite seqZ_app, (seqZ_cons (0 + j)) by lia.
  repeat (f_equal; try lia).
Qed.

Lemma none_empty_below B j :
  (forall i, 0 <= i < j -> src_query env (batch_query B (i * B)) <> Returns []) ->
  none_empty B (seqZ 0 j).
Proof. intros H i [??]%elem_of_seqZ. apply H. lia. Qed.

Lemma loop_events_app R B n l1 l2 :
  none_empty B l1 ->
  loop_events R B n (l1 ++ l2) = loop_events R B n l1 ++ loop_events R B n l2.
Proof.
  induction l1 as [|i l1 IH]; intros Hne; [done|].
  cbn [app loop_events].
  assert (verdict_of B i <> Stop) as Hi.
  { rewrite verdict_stop_iff. apply Hne. by left. }
  rewrite IH by (intros j Hj; apply Hne; by right).
  destruct (verdict_of B i); [done|by rewrite (assoc_L (++))..].
Qed.

Lemma kept_below B a (k : nat) i df :
  (i, df) ∈ kept B (seqZ a (Z.of_nat k)) -> a <= i < a + Z.of_nat k.
Proof. intros [Hi _]%elem_of_kept. by apply elem_of_seqZ in Hi. Qed.

Lemma kept_sorted B a (k : nat) :
  StronglySorted Z.lt (kept B (seqZ a (Z.of_nat k))).*1.
Proof.
  revert a. induction k as [|k IH]; intros a; [constructor|].
  rewrite seqZ_cons by lia. cbn [kept].
  replace (Z.pred (Z.of_nat (S k))) with (Z.of_nat k) by lia.
  destruct (verdict_of B a); [constructor|apply IH|].
  cbn [fmap list_fmap fst]. constructor; [apply IH|].
  apply Forall_forall. intros i [[i' df'] [-> Hin]]%list_elem_of_fmap.
  apply kept_below in Hin. simpl. lia.
Qed.

Lemma attempted_seqZ B a (k : nat) :
  exists m, 0 <= m <= Z.of_nat k /\ (0 < Z.of_nat k -> 0 < m)
            /\ attempted B (seqZ a (Z.of_nat k)) = seqZ a m.
Proof.
  revert a. induction k as [|k IH]; intros a.
  - exists 0. split; [lia|]. split; [lia|]. done.
  - rewrite seqZ_cons by lia. cbn [attempted].
    replace (Z.pred (Z.of_nat (S k))) with (Z.of_nat k) by lia.
    destruct (IH (Z.succ a)) as (m & Hm & _ & Heq).
    destruct (verdict_of B a).
    + exists 1. split; [lia|]. split; [lia|]. done.
    + exists (m + 1). split; [lia|]. split; [lia|].
      rewrite Heq, (seqZ_cons a (m + 1)) by lia. do 2 f_equal. lia.
    + exists (m + 1). split; [lia|]. split; [lia|].
      rewrite Heq, (seqZ_cons a (m + 1)) by lia. do 2 f_equal. lia.
Qed.

Lemma combine_result B s R :
  src_count env = Returns R ->
  (batch_import_bigquery_data env B s).1 = Returns true
  \/ exists e df, fs_write env combined_filename df = Some e
                  /\ (batch_import_bigquery_data env B s).1 = Raises e.
Proof.
  intros Hc. rewrite (run_count_returns _ _ _ Hc). cbn [fst].
  unfold combine_outcome. destruct (kept_batches R B).*2 as [|d l]; [by left|].
  destruct (fs_write env combined_filename (concat (d :: l))) eqn:Hw; [|by left].
  right. eauto.
Qed.

Lemma writes_of_combine acc p df :
  (p, df) ∈ writes_of (combine_events acc) ->
  p = combined_filename /\ df = concat acc /\ acc <> []
  /\ fs_write env combined_filename (concat acc) = None.
Proof.
  unfold combine_events. destruct acc as [|d l]; [by intros ?%elem_of_nil|].
  destruct (fs_write env _ _); cbn; [by intros ?%elem_of_nil|].
  intros [= -> ->]%list_elem_of_singleton. done.
Qed.

(** C3 (early termination).  When the query of index [j] is reached (no
    earlier batch came back empty) and returns no rows, the loop stops
    there: the queries issued are exactly those of the indices [0 .. j], a
    file written is the combined file or the file of a batch of index below
    [j], the stop is printed, no error is printed for batch [j], and the
    run goes on to return [True] unless writing the combined file raises. *)
Theorem C3_empty_batch_stops_the_loop R B s j :
  src_count env = Returns R ->
  0 <= j < num_batches R B ->
  (forall i, 0 <= i < j ->
     src_query env (batch_query B (i * B)) <> Returns []) ->
  src_query env (batch_query B (j * B)) = Returns [] ->
  let r := batch_import_bigquery_data env B s in
  let evs := added s r.2 in
  queries_of evs = (fun i => batch_query B (i * B)) <$> seqZ 0 (j + 1)
  /\ (forall p df, (p, df) ∈ writes_of evs ->
        p = combined_filename
        \/ exists i, 0 <= i < j /\ p = batch_filename (i + 1) (length df))
  /\ EvPrint (MsgZeroRows (j + 1)) ∈ evs
  /\ (forall e, (j + 1, e) ∉ errors_of evs)
  /\ (r.1 = Returns true
      \/ exists e df, fs_write env combined_filename df = Some e
                      /\ r.1 = Raises e).
Proof.
  intros Hc Hj Hbefore Hempty r evs.
  pose proof (none_empty_below B j Hbefore) as Hne.
  apply verdict_stop_iff in Hempty.
  subst evs r. rewrite (run_added_returns _ _ _ Hc).
  rewrite queries_of_run, writes_of_run, errors_of_run.
  unfold run_events, kept_batches. rewrite (range_split _ _ Hj).
  rewrite attempted_app, kept_app, failed_app, loop_events_app by done.
  cbn [attempted kept failed loop_events]. rewrite Hempty.
  rewrite !app_nil_r.
  split; [|split; [|split; [|split]]].
  - rewrite seqZ_app, !fmap_app by lia. f_equal; cbn; repeat f_equal; lia.
  - intros p df [Hin|Hin]%elem_of_app.
    + apply list_elem_of_fmap in Hin as [[i df'] [[= -> ->] Hin]].
      right. exists i. split; [|done].
      replace j with (Z.of_nat (Z.to_nat j)) in Hin by lia.
      apply kept_below in Hin. lia.
    + left. by apply writes_of_combine in Hin as [-> _].
  - rewrite !elem_of_app. right; left; right.
    unfold batch_events. rewrite Hempty. by repeat constructor.
  - intros e [[i e'] [[= Hi ->] Hin]]%list_elem_of_fmap.
    assert (i ∈ seqZ 0 j) as [??]%elem_of_seqZ; [|lia].
    clear -Hin. induction (seqZ 0 j) as [|a l IH]; cbn [failed] in Hin.
    + by apply elem_of_nil in Hin.
    + destruct (verdict_of B a).
      * by apply elem_of_nil in Hin.
      * apply elem_of_cons in Hin as [[= -> ->]|Hin]; [by left|right; auto].
      * right; auto.
  - apply (combine_result _ _ _ Hc).
Qed.

Lemma kept_complete B l1 i l2 df :
  none_empty B l1 -> verdict_of B i = Keep df ->
  (i, df) ∈ kept B (l1 ++ i :: l2).
Proof.
  intros Hne Hv. rewrite kept_app by done. apply elem_of_app; right.
  cbn [kept]. rewrite Hv. by left.
Qed.

Lemma failed_complete B l1 i l2 e :
  none_empty B l1 -> verdict_of B i = Fail e ->
  (i, e) ∈ failed B (l1 ++ i :: l2).
Proof.
  intros Hne Hv. rewrite failed_app by done. apply elem_of_app; right.
  cbn [failed]. rewrite Hv. by left.
Qed.

Lemma none_empty_snoc B l i :
  none_empty B l -> verdict_of B i <> Stop -> none_empty B (l ++ [i]).
Proof.
  intros Hne Hi j [Hj|Hj%list_elem_of_singleton]%elem_of_app; [by apply Hne|].
  subst j. by rewrite <- verdict_stop_iff.
Qed.

(** C2 (failure isolation).  When batch [k] is reached and its query or
    its write raises [e]: the error is printed with the batch number
    [k + 1]; the loop goes on, the queries issued being those of the
    indices [0 .. m - 1], each once and in order, with [m] at least
    [min (k + 2) n] (so batch [k + 1] is attempted when there is one, and
    batch [k] is not retried); the error does not leave the run, which
    returns [True] unless writing the combined file raises; batches
    [k - 1] and [k + 1], when they succeed, are written; and when every
    other batch succeeds the combined file holds the rows of all batches
    but [k], in the order of the indices. *)
Theorem C2_failed_batch_is_skipped R B s k e :
  src_count env = Returns R ->
  0 <= k < num_batches R B ->
  (forall i, 0 <= i < k ->
     src_query env (batch_query B (i * B)) <> Returns []) ->
  batch_fails B k e ->
  let n := num_batches R B in
  let r := batch_import_bigquery_data env B s in
  let evs := added s r.2 in
  (k + 1, e) ∈ errors_of evs
  /\ (exists m, Z.min (k + 2) n <= m <= n
                /\ queries_of evs
                   = (fun i => batch_query B (i * B)) <$> seqZ 0 m)
  /\ (r.1 = Returns true
      \/ exists e' df, fs_write env combined_filename df = Some e'
                       /\ r.1 = Raises e')
  /\ (forall i df, i = k - 1 \/ i = k + 1 -> 0 <= i < n ->
        batch_succeeds B i df ->
        (batch_filename (i + 1) (length df), df) ∈ writes_of evs)
  /\ (forall dfs : Z -> DataFrame coord,
        (forall i, 0 <= i < n -> i <> k -> batch_succeeds B i (dfs i)) ->
        let rest := concat (dfs <$> (seqZ 0 k ++ seqZ (k + 1) (n - k - 1))) in
        (forall p df, (p, df) ∈ writes_of evs -> p = combined_filename ->
                      df = rest)
        /\ (1 < n -> fs_write env combined_filename rest = None ->
            (combined_filename, rest) ∈ writes_of evs
            /\ files r.2 !! combined_filename = Some rest)).
Proof.
  intros Hc Hk Hbefore Hfail n r evs.
  pose proof (none_empty_below B k Hbefore) as Hne.
  apply verdict_fail_iff in Hfail.
  assert (Hk' : verdict_of B k <> Stop) by (by rewrite Hfail).
  assert (Hne' : none_empty B (seqZ 0 k ++ [k])) by (by apply none_empty_snoc).
  assert (Hrange : range n = (seqZ 0 k ++ [k]) ++ seqZ (k + 1) (n - k - 1)).
  { rewrite (range_split n k Hk), <- (assoc_L (++)). done. }
  subst evs. unfold r. rewrite (run_added_returns _ _ _ Hc).
  rewrite queries_of_run, writes_of_run, errors_of_run. fold n.
  split; [|split; [|split; [|split]]].
  - apply list_elem_of_fmap. exists (k, e). split; [done|].
    rewrite (range_split n k Hk). by apply failed_complete.
  - rewrite Hrange, attempted_app by done.
    destruct (attempted_seqZ B (k + 1) (Z.to_nat (n - k - 1)))
      as (m & Hm & Hpos & Heq).
    rewrite Z2Nat.id in Heq, Hm, Hpos by lia. rewrite Heq.
    exists (k + 1 + m). split; [lia|].
    f_equal. rewrite (seqZ_app 0 (k + 1) m), (seqZ_app 0 k 1) by lia.
    cbn. repeat (f_equal; try lia).
  - apply (combine_result _ _ _ Hc).
  - intros i df Hi Hin Hs. apply verdict_keep_iff in Hs.
    apply elem_of_app; left. apply list_elem_of_fmap.
    exists (i, df). split; [done|]. unfold kept_batches. fold n.
    destruct Hi as [-> | ->].
    + rewrite (range_split n (k - 1)) by lia. apply kept_complete; [|done].
      apply none_empty_below. intros; apply Hbefore; lia.
    + rewrite Hrange, (seqZ_cons (k + 1)) by lia. by apply kept_complete.
  - intros dfs Hall.
    set (rest := concat (dfs <$> seqZ 0 k ++ seqZ (k + 1) (n - k - 1))).
    assert (Hkept : kept_batches R B
                    = (fun i => (i, dfs i))
                        <$> (seqZ 0 k ++ seqZ (k + 1) (n - k - 1))).
    { unfold kept_batches. fold n. rewrite Hrange.
      rewrite kept_app, kept_app by (done || by eapply none_empty_below).
      cbn [kept]. rewrite Hfail. cbn [kept]. rewrite app_nil_r, fmap_app.
      f_equal; apply kept_all;
        intros i [??]%elem_of_seqZ; apply verdict_keep_iff, Hall; lia. }
    assert (Hacc : (kept_batches R B).*2
                   = dfs <$> (seqZ 0 k ++ seqZ (k + 1) (n - k - 1))).
    { rewrite Hkept, <- list_fmap_compose. done. }
    split.
    + intros p df [Hin|Hin]%elem_of_app Hp.
      * apply list_elem_of_fmap in Hin as [[i df'] [[= -> ->] Hin]].
        exfalso. clear -Hp. unfold batch_filename, combined_filename in Hp.
        discriminate Hp.
      * apply writes_of_combine in Hin as (_ & -> & _). by rewrite Hacc.
    + intros Hn Hw. rewrite (run_count_returns _ _ _ Hc). cbn [snd files].
      unfold combine_events, combine_files. rewrite Hacc. fold rest.
      destruct (dfs <$> seqZ 0 k ++ seqZ (k + 1) (n - k - 1)) as [|d l] eqn:Hl.
      { apply (f_equal length) in Hl.
        rewrite length_fmap, length_app, !length_seqZ in Hl. cbn in Hl. lia. }
      rewrite Hw. split.
      * apply elem_of_app; right. cbn. by left.
      * apply lookup_insert_eq.
Qed.

Lemma batch_filename_not_combined k rows : batch_filename k rows <> combined_filename.
Proof. unfold batch_filename, combined_filename. discriminate. Qed.

Lemma filter_batch_writes_other (l : list (Z * DataFrame coord)) :
  filter (fun w => w.1 <> combined_filename) (batch_write <$> l)
  = batch_write <$> l.
Proof.
  induction l as [|k l IH]; [done|].
  rewrite fmap_cons, filter_cons_True, IH;
    [done|apply batch_filename_not_combined].
Qed.

Lemma filter_batch_writes_combined (l : list (Z * DataFrame coord)) :
  filter (fun w => w.1 = combined_filename) (batch_write <$> l) = [].
Proof.
  induction l as [|k l IH]; [done|].
  rewrite fmap_cons, filter_cons_False; [done|].
  apply batch_filename_not_combined.
Qed.

(** C4 (combination).  Let [ks] be the batches a run keeps.  They are in
    ascending order of index, and they are exactly the batches that are
    reached and succeed (query with rows, file written).  The batch files
    written are those of [ks], in order.  When [ks] is empty the
    combination step is skipped: no combined file is written, the files
    stay as they were and the run returns [True].  Otherwise the step
    writes the combined file once, with the concatenation of the rows of
    [ks] in order, and the run returns [True]; or that write raises, the
    error leaves the run and no combined file is written. *)
Theorem C4_combined_is_the_concatenation R B s :
  src_count env = Returns R ->
  let n := num_batches R B in
  let r := batch_import_bigquery_data env B s in
  let evs := added s r.2 in
  let ks := kept_batches R B in
  StronglySorted Z.lt ks.*1
  /\ (forall i df, (i, df) ∈ ks <->
        0 <= i < n
        /\ (forall i', 0 <= i' < i ->
              src_query env (batch_query B (i' * B)) <> Returns [])
        /\ batch_succeeds B i df)
  /\ filter (fun w => w.1 <> combined_filename) (writes_of evs)
     = (fun k => (batch_filename (k.1 + 1) (length k.2), k.2)) <$> ks
  /\ (ks = [] ->
      filter (fun w => w.1 = combined_filename) (writes_of evs) = []
      /\ files r.2 = files s
      /\ r.1 = Returns true)
  /\ (ks <> [] ->
      match fs_write env combined_filename (concat ks.*2) with
      | None =>
          filter (fun w => w.1 = combined_filename) (writes_of evs)
          = [(combined_filename, concat ks.*2)]
          /\ files r.2 !! combined_filename = Some (concat ks.*2)
          /\ r.1 = Returns true
      | Some e =>
          filter (fun w => w.1 = combined_filename) (writes_of evs) = []
          /\ r.1 = Raises e
      end).
Proof.
  intros Hc n r evs ks.
  subst evs. unfold r. rewrite (run_added_returns _ _ _ Hc), writes_of_run.
  rewrite (run_count_returns _ _ _ Hc). cbn [fst snd files]. fold ks.
  rewrite !filter_app, filter_batch_writes_other, filter_batch_writes_combined.
  split; [|split; [|split; [|split]]].
  - unfold ks, kept_batches, range.
    destruct (decide (0 <= n)) as [Hn|Hn].
    + replace (num_batches R B) with (Z.of_nat (Z.to_nat n)) by (unfold n; lia).
      apply kept_sorted.
    + fold n. rewrite seqZ_nil by lia. constructor.
  - intros i df. unfold ks, kept_batches. fold n. split.
    + intros Hin. destruct (elem_of_kept _ _ _ _ Hin) as [Hi Hv].
      apply elem_of_seqZ in Hi. split; [lia|]. split; [|by apply verdict_keep_iff].
      intros i' Hi' Hq. apply verdict_stop_iff in Hq.
      rewrite (range_split n i') in Hin by lia.
      pose proof (kept_sublist B (seqZ 0 i')) as Hsub.
      clear -Hin Hq Hi'.
      assert (Hgen : forall l, (i, df) ∈ kept B (l ++ i' :: seqZ (i' + 1) (n - i' - 1)) ->
                       i ∈ l).
      { induction l as [|a l IH]; cbn [app kept].
        - rewrite Hq. by intros ?%elem_of_nil.
        - destruct (verdict_of B a).
          + by intros ?%elem_of_nil.
          + intros H. right. by apply IH.
          + intros [[= -> _]|H]%elem_of_cons; [by left|right; by apply IH]. }
      apply Hgen, elem_of_seqZ in Hin. lia.
    + intros (Hi & Hbefore & Hs). rewrite (range_split n i) by lia.
      apply kept_complete; [by apply none_empty_below|by apply verdict_keep_iff].
  - unfold combine_events. destruct ks.*2; [by rewrite app_nil_r|].
    destruct (fs_write env _ _); cbn; by rewrite app_nil_r.
  - intros ->. done.
  - intros Hks. unfold combine_events, combine_files, combine_outcome.
    destruct ks.*2 as [|d l] eqn:Hacc; [by destruct ks|].
    destruct (fs_write env combined_filename (concat (d :: l))); [done|].
    split; [done|]. split; [apply lookup_insert_eq|done].
Qed.

Lemma strip_prefix_Some p t f : strip_prefix p t = Some f -> t = p +:+ f.
Proof.
  revert t. induction p as [|a p IH]; intros t; cbn [strip_prefix].
  - by intros [= ->].
  - destruct t as [|b t]; [done|]. case_decide; [|done].
    intros ->%IH. by subst.
Qed.

Lemma entry_of_Some d path f :
  entry_of d path = Some f -> path = os_path_join d f.
Proof.
  unfold entry_of, os_path_join.
  destruct (strip_prefix _ _) as [f'|] eqn:Hs; [|done].
  destruct (has_slash f'); [done|]. intros [= ->].
  apply strip_prefix_Some in Hs. subst path.
  clear. induction d as [|a d IH]; [done|].
  change ((String a d +:+ "/") +:+ f) with (String a ((d +:+ "/") +:+ f)).
  by rewrite IH.
Qed.

Lemma listing_exists s f :
  f ∈ listing s -> is_Some (files s !! os_path_join OUTPUT_DIR f).
Proof.
  unfold listing. intros (path & Hin & He)%list_elem_of_omap.
  apply entry_of_Some in He as <-.
  apply list_elem_of_fmap in Hin as [[p df] [-> Hin]].
  apply elem_of_map_to_list in Hin. by exists df.
Qed.

Lemma csv_files_exist s f :
  f ∈ csv_files s -> is_Some (files s !! os_path_join OUTPUT_DIR f).
Proof.
  unfold csv_files, sorted. rewrite merge_sort_Permutation.
  intros [_ Hin]%list_elem_of_filter. by apply listing_exists.
Qed.

Lemma read_batch_file_eq ss f s df :
  files s !! os_path_join OUTPUT_DIR f = Some df ->
  read_batch_file ss f s =
    (Returns (if bool_decide
                   (ss <= Z.of_nat (length (concat (sample_data s ++ [df]))))
              then Break else Continue),
     mkState (files s) (dirs s)
             (trace s ++ [EvReadCsv (os_path_join OUTPUT_DIR f)])
             (all_data s) (sample_data s ++ [df])).
Proof.
  intros Hdf. unfold read_batch_file.
  cbv [mbind M_bind mret M_ret read_csv emit get_sample_data set_sample_data
       pd_concat].
  rewrite Hdf. cbn [all_data files dirs trace sample_data].
  destruct (sample_data s ++ [df]) as [|d acc] eqn:Hacc.
  { by destruct (sample_data s). }
  by case_bool_decide.
Qed.

Lemma for_in_read_batch_file ss s0 l s :
  files s = files s0 ->
  (forall f, f ∈ l -> is_Some (files s0 !! os_path_join OUTPUT_DIR f)) ->
  for_in l (read_batch_file ss) s = (Returns tt, read_state ss s0 l s).
Proof.
  revert s. induction l as [|f l IH]; intros s Hf Hex.
  - unfold read_state. cbn. rewrite !app_nil_r. by destruct s.
  - cbn [for_in]. destruct (Hex f ltac:(by left)) as [df Hdf].
    assert (Hcont : content s0 f = df) by (unfold content; by rewrite Hdf).
    rewrite <- Hf in Hdf.
    erewrite bind_returns by apply (read_batch_file_eq _ _ _ _ Hdf).
    unfold read_state at 1. cbn [read_files]. rewrite Hcont.
    case_bool_decide.
    + cbn [fmap list_fmap]. by rewrite Hcont.
    + rewrite IH; [|done|intros; apply Hex; by right].
      unfold read_state. cbn [all_data files dirs trace sample_data].
      cbn [fmap list_fmap]. rewrite Hcont.
      by rewrite <- !(assoc_L (++)).
Qed.

Lemma read_files_prefix ss s0 have l :
  l <> [] ->
  exists m : nat,
    (1 <= m <= length l)%nat
    /\ read_files ss s0 have l = take m l
    /\ (forall j : nat, (1 <= j < m)%nat ->
          Z.of_nat (length (concat (have ++ (content s0 <$> take j l)))) < ss)
    /\ ((m < length l)%nat ->
          ss <= Z.of_nat (length (concat (have ++ (content s0 <$> take m l))))).
Proof.
  revert have. induction l as [|f l IH]; intros have Hl; [done|].
  cbn [read_files]. case_bool_decide as Hb.
  - exists 1%nat. cbn [length take fmap list_fmap].
    split; [lia|]. split; [done|]. split; [lia|done].
  - destruct l as [|g l].
    + exists 1%nat. cbn [length take fmap list_fmap read_files].
      split; [lia|]. split; [done|]. split; lia.
    + destruct (IH (have ++ [content s0 f]) ltac:(done))
        as (m & Hm & Heq & Hlt & Hge).
      exists (S m). split; [cbn [length] in *; lia|].
      split; [by rewrite Heq|]. split.
      * intros [|j] Hj; [lia|]. destruct j as [|j].
        -- cbn [take fmap list_fmap]. lia.
        -- specialize (Hlt (S j) ltac:(lia)).
           rewrite <- (assoc_L (++)) in Hlt. exact Hlt.
      * intros Hm'. cbn [length] in Hm', Hge.
        specialize (Hge ltac:(lia)).
        rewrite <- (assoc_L (++)) in Hge. exact Hge.
Qed.

Lemma os_path_exists_eq s :
  os_path_exists OUTPUT_DIR s = (Returns (present_before s), s).
Proof. reflexivity. Qed.

Lemma os_listdir_eq s : os_listdir OUTPUT_DIR s = (Returns (listing s), s).
Proof. reflexivity. Qed.

Lemma create_sample_eq ss s :
  create_sample_from_batches env ss s =
    (sample_outcome ss s,
     mkState (sample_files ss s) (dirs s) (trace s ++ sample_events ss s)
             (all_data s)
             (if present_before s then content s <$> sample_read ss s
              else sample_data s)).
Proof.
  unfold create_sample_from_batches, sample_outcome, sample_files, sample_events.
  erewrite bind_returns by apply os_path_exists_eq.
  destruct (present_before s) eqn:Hp; cbn [negb]; [|done].
  erewrite bind_returns by apply print_eq.
  erewrite bind_returns by reflexivity.
  erewrite bind_returns by apply os_listdir_eq.
  cbn [log set_sample_data all_data files dirs trace sample_data].
  repeat match goal with
         | |- context [listing ?x] =>
             progress change (listing x) with (listing s)
         end.
  fold (csv_files s).
  erewrite bind_returns.
  2:{ apply (for_in_read_batch_file ss s); [done|].
      intros f Hin. apply csv_files_exist.
      by apply (subseteq_take 5). }
  unfold read_state. cbn [all_data files dirs trace sample_data app].
  fold (sample_read ss s).
  cbv [mbind M_bind mret M_ret get_sample_data].
  cbn [all_data files dirs trace sample_data].
  destruct (sample_read ss s) as [|f rd] eqn:Hrd.
  - cbn [fmap list_fmap]. rewrite print_eq. unfold log. cbn [all_data files dirs trace sample_data].
    by rewrite app_nil_r, <- (assoc_L (++)).
  - cbn [fmap list_fmap]. unfold pd_concat, to_csv, print, emit.
    cbv [mbind M_bind mret M_ret].
    cbn [all_data files dirs trace sample_data].
    unfold sampled. rewrite Hrd. cbn [fmap list_fmap].
    destruct (fs_write env sample_filename _);
      cbn [all_data files dirs trace sample_data];
      rewrite <- ?(assoc_L (++)); cbn [app]; rewrite ?app_nil_r; done.
Qed.

Lemma reads_of_print m (t : list (Event coord)) :
  reads_of (EvPrint m :: t) = reads_of t.
Proof. reflexivity. Qed.

Lemma writes_of_print m (t : list (Event coord)) :
  writes_of (EvPrint m :: t) = writes_of t.
Proof. reflexivity. Qed.

Lemma reads_of_read_events (l : list string) :
  reads_of (EvReadCsv ∘ os_path_join OUTPUT_DIR <$> l)
  = os_path_join OUTPUT_DIR <$> l.
Proof. induction l as [|f l IH]; [done|]. cbn. by f_equal. Qed.

Lemma writes_of_read_events (l : list string) :
  writes_of (EvReadCsv ∘ os_path_join OUTPUT_DIR <$> l) = [].
Proof. induction l as [|f l IH]; [done|]. cbn. done. Qed.

Lemma csv_files_sorted s : Sorted String.le (csv_files s).
Proof. unfold csv_files, sorted. apply (Sorted_merge_sort String.le). Qed.

Lemma csv_files_perm s :
  csv_files s ≡ₚ filter (fun f => Fmt.endswith f ".csv" = true) (listing s).
Proof. unfold csv_files, sorted. apply merge_sort_Permutation. Qed.


Lemma sample_read_cons ss s : csv_files s <> [] -> sample_read ss s <> [].
Proof.
  unfold sample_read. destruct (csv_files s) as [|f l]; [done|]. intros _.
  cbn [take read_files]. done.
Qed.






Lemma failed_all B l :
  (forall i, i ∈ l -> exists e, verdict_of B i = Fail e) ->
  (failed B l).*1 = l /\ kept B l = [].
Proof.
  induction l as [|i l IH]; intros H; [done|]. cbn [failed kept].
  destruct (H i ltac:(by left)) as [e ->].
  destruct IH as [IH1 IH2]; [intros; apply H; by right|].
  cbn [fmap list_fmap fst]. by rewrite IH1, IH2.
Qed.


(** C10 (the returned value).  Whenever the export returns, it returns
    [True].  It returns [True] when no file at all was written, and when
    every batch raised: then nothing is written and one error per planned
    batch is printed, and still the result is [True]. *)
Theorem C10_returned_value_is_always_true B s :
  let r := batch_import_bigquery_data env B s in
  (forall v, r.1 = Returns v -> v = true)
  /\ (forall R, src_count env = Returns R ->
        writes_of (added s r.2) = [] -> r.1 = Returns true)
  /\ (forall R, src_count env = Returns R ->
        (forall i, 0 <= i < num_batches R B -> exists e, batch_fails B i e) ->
        r.1 = Returns true
        /\ writes_of (added s r.2) = []
        /\ (errors_of (added s r.2)).*1
           = (fun i => i + 1) <$> seqZ 0 (num_batches R B)).
Proof.
  intros r. subst r. split; [|split].
  - intros v. destruct (src_count env) as [R|e] eqn:Hc.
    + rewrite (run_count_returns _ _ _ Hc). cbn [fst].
      destruct (combine_outcome _); [done|]. by intros [= <-].
    + by rewrite (run_count_raises _ _ _ Hc).
  - intros R Hc. rewrite (run_added_returns _ _ _ Hc), writes_of_run.
    rewrite (run_count_returns _ _ _ Hc). cbn [fst].
    intros [Hk _]%app_eq_nil. apply fmap_nil_inv in Hk. by rewrite Hk.
  - intros R Hc Hall.
    destruct (failed_all B (range (num_batches R B))) as [Hf Hk].
    { intros i [??]%elem_of_seqZ. destruct (Hall i ltac:(lia)) as [e He].
      exists e. by apply verdict_fail_iff. }
    rewrite (run_added_returns _ _ _ Hc), writes_of_run, errors_of_run.
    rewrite (run_count_returns _ _ _ Hc). cbn [fst].
    unfold kept_batches. rewrite Hk. split; [done|]. split; [done|].
    transitivity ((fun i => i + 1) <$> (failed B (range (num_batches R B))).*1);
      [by rewrite <- !list_fmap_compose | by rewrite Hf].
Qed.


(** *** The file system across a run *)

Lemma foldl_store_is_Some (m : gmap string (DataFrame coord)) L p :
  is_Some (m !! p) -> is_Some (foldl store m L !! p).
Proof.
  revert m. induction L as [|w L IH]; intros m Hm; [done|].
  cbn [foldl]. apply IH. unfold store.
  destruct (decide (w.1 = p)) as [->|Hne].
  - rewrite lookup_insert_eq. by eexists.
  - by rewrite lookup_insert_ne.
Qed.

Lemma foldl_store_agree (m m' : gmap string (DataFrame coord)) L p :
  (p ∉ L.*1 -> m !! p = m' !! p) ->
  foldl store m L !! p = foldl store m' L !! p.
Proof.
  revert m m'. induction L as [|w L IH]; intros m m' Hm.
  - apply Hm. apply not_elem_of_nil.
  - cbn [foldl]. apply IH. intros Hp. unfold store.
    destruct (decide (w.1 = p)) as [->|Hne].
    + by rewrite !lookup_insert_eq.
    + rewrite !lookup_insert_ne by done. apply Hm.
      rewrite fmap_cons. intros [?|?]%elem_of_cons; done.
Qed.

Lemma foldl_store_frame (m : gmap string (DataFrame coord)) L p :
  p ∉ L.*1 -> foldl store m L !! p = m !! p.
Proof.
  revert m. induction L as [|w L IH]; intros m Hp; [done|].
  cbn [foldl]. rewrite fmap_cons in Hp. apply not_elem_of_cons in Hp as [? ?].
  rewrite IH by done. unfold store. by rewrite lookup_insert_ne.
Qed.

Lemma foldl_store_twice (m : gmap string (DataFrame coord)) L :
  foldl store (foldl store m L) L = foldl store m L.
Proof.
  apply map_eq. intros p. apply foldl_store_agree.
  intros Hp. by apply foldl_store_frame.
Qed.

Lemma combine_files_store acc (m : gmap string (DataFrame coord)) :
  combine_files acc m = foldl store m (writes_of (combine_events acc)).
Proof.
  unfold combine_files, combine_events. destruct acc as [|d l]; [done|].
  by destruct (fs_write env combined_filename (concat (d :: l))).
Qed.

Lemma run_files B s R :
  src_count env = Returns R ->
  files (batch_import_bigquery_data env B s).2
  = foldl store (files s) (writes_of (run_events s R B)).
Proof.
  intros Hc. rewrite (run_count_returns _ _ _ Hc). cbn [snd files].
  by rewrite writes_of_run, foldl_app, combine_files_store.
Qed.

Lemma run_writes_raises B s e :
  src_count env = Raises e ->
  added s (batch_import_bigquery_data env B s).2
  = [EvPrint MsgCounting; EvCount count_query].
Proof. intros Hc. rewrite (run_count_raises _ _ _ Hc). by apply added_app. Qed.

Lemma run_files_writes B s :
  files (batch_import_bigquery_data env B s).2
  = foldl store (files s)
      (writes_of (added s (batch_import_bigquery_data env B s).2)).
Proof.
  destruct (src_count env) as [R|e] eqn:Hc.
  - rewrite (run_added_returns _ _ _ Hc). by apply run_files.
  - rewrite (run_writes_raises _ _ _ Hc), (run_count_raises _ _ _ Hc). done.
Qed.

Lemma run_dirs B s :
  dirs (batch_import_bigquery_data env B s).2
  = match src_count env with
    | Returns _ => if present_before s then dirs s else {[OUTPUT_DIR]} ∪ dirs s
    | Raises _ => dirs s
    end.
Proof.
  destruct (src_count env) as [R|e] eqn:Hc.
  - by rewrite (run_count_returns _ _ _ Hc).
  - by rewrite (run_count_raises _ _ _ Hc).
Qed.

Lemma run_trace B s :
  trace (batch_import_bigquery_data env B s).2
  = trace s ++ added s (batch_import_bigquery_data env B s).2.
Proof.
  destruct (src_count env) as [R|e] eqn:Hc.
  - rewrite (run_added_returns _ _ _ Hc). by rewrite (run_count_returns _ _ _ Hc).
  - rewrite (run_writes_raises _ _ _ Hc). by rewrite (run_count_raises _ _ _ Hc).
Qed.


(** *** What becomes of each batch query *)

Lemma stops_of_app t1 t2 : stops_of (t1 ++ t2) = stops_of t1 ++ stops_of t2.
Proof. apply omap_app. Qed.

Lemma stops_of_batch R B n i :
  stops_of (batch_events R B n i)
  = match verdict_of B i with Stop => [i + 1] | _ => [] end.
Proof. unfold batch_events. by destruct (verdict_of B i). Qed.

Lemma loop_accounts R B n l :
  length (queries_of (loop_events R B n l))
  = (length (writes_of (loop_events R B n l))
     + length (errors_of (loop_events R B n l))
     + length (stops_of (loop_events R B n l)))%nat.
Proof.
  induction l as [|i l IH]; [done|]. cbn [loop_events].
  rewrite queries_of_app, writes_of_app, errors_of_app, stops_of_app.
  rewrite queries_of_batch, writes_of_batch, errors_of_batch, stops_of_batch.
  rewrite !length_app.
  destruct (verdict_of B i); [simpl; lia|rewrite IH; simpl; lia..].
Qed.

Lemma loop_stops R B n a (k : nat) :
  stops_of (loop_events R B n (seqZ a (Z.of_nat k))) = []
  \/ stops_of (loop_events R B n (seqZ a (Z.of_nat k)))
     = [a + Z.of_nat (length (queries_of (loop_events R B n (seqZ a (Z.of_nat k)))))].
Proof.
  revert a. induction k as [|k IH]; intros a; [by left|].
  rewrite seqZ_cons by lia. cbn [loop_events].
  replace (Z.pred (Z.of_nat (S k))) with (Z.of_nat k) by lia.
  rewrite !stops_of_app, !queries_of_app, stops_of_batch, queries_of_batch.
  destruct (verdict_of B a).
  - right. cbn. do 2 f_equal.
  - destruct (IH (Z.succ a)) as [->| ->]; [by left|right].
    cbn [app length]. f_equal. lia.
  - destruct (IH (Z.succ a)) as [->| ->]; [by left|right].
    cbn [app length]. f_equal. lia.
Qed.

Lemma stops_of_run s R B :
  stops_of (run_events s R B)
  = stops_of (loop_events R B (num_batches R B) (range (num_batches R B))).
Proof.
  unfold run_events, prologue, closing. rewrite !stops_of_app.
  assert (stops_of (combine_events (kept_batches R B).*2) = []) as ->.
  { unfold combine_events. destruct (kept_batches R B).*2; [done|].
    by destruct (fs_write env _ _). }
  destruct (present_before s); cbn; by rewrite app_nil_r.
Qed.

Lemma writes_of_combine_events acc :
  writes_of (combine_events acc)
  = match acc with
    | [] => []
    | _ :: _ =>
        match fs_write env combined_filename (concat acc) with
        | Some _ => []
        | None => [(combined_filename, concat acc)]
        end
    end.
Proof.
  unfold combine_events. destruct acc as [|d l]; [done|].
  by destruct (fs_write env _ _).
Qed.

Lemma batch_writes_of_run s R B :
  batch_writes_of (run_events s R B) = batch_write <$> kept_batches R B.
Proof.
  unfold batch_writes_of. rewrite writes_of_run, filter_app.
  rewrite filter_batch_writes_other.
  assert (filter (fun w => w.1 <> combined_filename)
            (writes_of (combine_events (kept_batches R B).*2)) = []) as ->.
  { rewrite writes_of_combine_events.
    destruct (kept_batches R B).*2; [done|].
    destruct (fs_write env _ _); [done|].
    rewrite filter_cons_False; [done|]. cbn. by intros H. }
  by rewrite app_nil_r.
Qed.

(** X2 (every batch query is accounted for).  Each batch query a run
    issues ends in exactly one of three ways: its batch file is written,
    its error is printed, or it came back empty and the loop stopped.  So
    the queries are as many as the batch files, the errors and the stop
    together; there is at most one stop, and it carries the number of the
    last query. *)
Theorem every_batch_query_is_accounted_for B s :
  let evs := added s (batch_import_bigquery_data env B s).2 in
  length (queries_of evs)
  = (length (batch_writes_of evs) + length (errors_of evs)
     + length (stops_of evs))%nat
  /\ (stops_of evs = []
      \/ stops_of evs = [Z.of_nat (length (queries_of evs))]).
Proof.
  intros evs. subst evs. destruct (src_count env) as [R|e] eqn:Hc.
  - rewrite (run_added_returns _ _ _ Hc).
    rewrite batch_writes_of_run, stops_of_run, errors_of_run, queries_of_run.
    rewrite <- queries_of_loop with (R := R) (n := num_batches R B).
    rewrite <- errors_of_loop with (R := R) (n := num_batches R B).
    unfold kept_batches.
    rewrite <- writes_of_loop with (R := R) (n := num_batches R B).
    split; [apply loop_accounts|].
    unfold range.
    destruct (decide (0 <= num_batches R B)) as [Hn|Hn].
    + replace (num_batches R B) with (Z.of_nat (Z.to_nat (num_batches R B))) at 2 4 6 by lia.
      destruct (loop_stops R B (num_batches R B) 0 (Z.to_nat (num_batches R B)))
        as [->| ->]; [by left|right]. f_equal.
    + rewrite seqZ_nil by lia. by left.
  - rewrite (run_writes_raises _ _ _ Hc). split; [done|by left].
Qed.

(** *** Running the export again *)

Lemma run_present B s R :
  src_count env = Returns R ->
  present_before (batch_import_bigquery_data env B s).2 = true.
Proof.
  intros Hc. unfold present_before at 1. apply bool_decide_eq_true.
  rewrite run_dirs, Hc. destruct (present_before s) eqn:Hp.
  - apply bool_decide_eq_true in Hp as [Hd|Hf]; [by left|right].
    rewrite run_files_writes. by apply foldl_store_is_Some.
  - left. set_solver.
Qed.

Lemma run_result B s s' :
  (batch_import_bigquery_data env B s).1 = (batch_import_bigquery_data env B s').1.
Proof.
  destruct (src_count env) as [R|e] eqn:Hc.
  - by rewrite !(run_count_returns _ _ _ Hc).
  - by rewrite !(run_count_raises _ _ _ Hc).
Qed.

(** X3 (running the export again).  A second run of the export against
    the same source and file writer issues the same batch queries and
    writes the same files with the same tables as the first, returns or
    raises the same, and leaves the files and directories exactly as the
    first run left them. *)
Theorem export_again_changes_nothing B s :
  let r1 := batch_import_bigquery_data env B s in
  let r2 := batch_import_bigquery_data env B r1.2 in
  r2.1 = r1.1
  /\ files r2.2 = files r1.2
  /\ dirs r2.2 = dirs r1.2
  /\ queries_of (added r1.2 r2.2) = queries_of (added s r1.2)
  /\ writes_of (added r1.2 r2.2) = writes_of (added s r1.2).
Proof.
  intros r1 r2. subst r1 r2. split; [apply run_result|].
  destruct (src_count env) as [R|e] eqn:Hc.
  - rewrite (run_files _ (batch_import_bigquery_data env B s).2 _ Hc).
    rewrite (run_files _ s _ Hc), !(run_added_returns _ _ _ Hc).
    rewrite !queries_of_run, !writes_of_run.
    split; [apply foldl_store_twice|]. split; [|done].
    rewrite (run_dirs _ (batch_import_bigquery_data env B s).2), Hc.
    by rewrite (run_present _ _ _ Hc).
  - rewrite !(run_writes_raises _ _ _ Hc), !(run_count_raises _ _ _ Hc). done.
Qed.

(** *** The listing of the batch directory *)

Lemma entry_of_join f :
  has_slash f = false -> entry_of OUTPUT_DIR (os_path_join OUTPUT_DIR f) = Some f.
Proof.
  intros Hf. unfold entry_of.
  assert (strip_prefix (OUTPUT_DIR +:+ "/") (os_path_join OUTPUT_DIR f) = Some f)
    as -> by reflexivity.
  by rewrite Hf.
Qed.

Lemma entry_of_no_slash d path f : entry_of d path = Some f -> has_slash f = false.
Proof.
  unfold entry_of. destruct (strip_prefix _ _) as [f'|]; [|done].
  destruct (has_slash f') eqn:Hs; [done|]. by intros [= <-].
Qed.

Lemma listing_elem_of s f :
  f ∈ listing s
  <-> has_slash f = false /\ is_Some (files s !! os_path_join OUTPUT_DIR f).
Proof.
  split.
  - intros Hin. split; [|by apply listing_exists].
    apply list_elem_of_omap in Hin as (path & _ & He).
    by apply entry_of_no_slash in He.
  - intros [Hs [df Hdf]]. apply list_elem_of_omap.
    exists (os_path_join OUTPUT_DIR f). split; [|by apply entry_of_join].
    apply list_elem_of_fmap. exists (os_path_join OUTPUT_DIR f, df).
    split; [done|]. by apply elem_of_map_to_list.
Qed.

Lemma NoDup_omap_inj {A C} (g : A -> option C) (l : list A) :
  (forall x y z, g x = Some z -> g y = Some z -> x = y) ->
  NoDup l -> NoDup (omap g l).
Proof.
  intros Hg. induction 1 as [|x l Hx Hl IH]; [constructor|].
  cbn [omap list_omap]. destruct (g x) as [z|] eqn:Hz; [|done].
  constructor; [|done].
  intros (y & Hy & Hgy)%list_elem_of_omap.
  by rewrite (Hg x y z Hz Hgy) in Hx.
Qed.

Lemma listing_NoDup s : NoDup (listing s).
Proof.
  unfold listing. apply NoDup_omap_inj; [|apply NoDup_fst_map_to_list].
  intros x y z ->%entry_of_Some ->%entry_of_Some. done.
Qed.

Lemma csv_files_elem_of s f :
  f ∈ csv_files s <-> Fmt.endswith f ".csv" = true /\ f ∈ listing s.
Proof.
  unfold csv_files, sorted. rewrite merge_sort_Permutation.
  by rewrite list_elem_of_filter.
Qed.

Lemma csv_files_ext s s' :
  (forall f, Fmt.endswith f ".csv" = true ->
             (f ∈ listing s <-> f ∈ listing s')) ->
  csv_files s = csv_files s'.
Proof.
  intros Hl.
  apply (Sorted_unique String.le); [apply csv_files_sorted..|].
  rewrite !csv_files_perm.
  apply NoDup_Permutation; [apply NoDup_filter, listing_NoDup..|].
  intros f. rewrite !list_elem_of_filter. specialize (Hl f). tauto.
Qed.

Lemma content_ext s s' f :
  files s' !! os_path_join OUTPUT_DIR f = files s !! os_path_join OUTPUT_DIR f ->
  content s' f = content s f.
Proof. unfold content. by intros ->. Qed.

(** X4 (the export does not clean the batch directory).  A [.csv] file
    that is in the batch directory before a run is still there after it,
    and it holds what it held unless this run wrote a batch file of the
    same name: the files of earlier runs stay candidates of a later
    sampling pass. *)
Theorem export_keeps_the_batch_files_it_finds B s f :
  f ∈ csv_files s ->
  let r := batch_import_bigquery_data env B s in
  f ∈ csv_files r.2
  /\ (os_path_join OUTPUT_DIR f ∉ (writes_of (added s r.2)).*1 ->
      content r.2 f = content s f).
Proof.
  intros Hf r. subst r. split.
  - apply csv_files_elem_of in Hf as [Hcsv Hin].
    apply csv_files_elem_of. split; [done|].
    apply listing_elem_of in Hin as [Hs Hex]. apply listing_elem_of.
    split; [done|]. rewrite run_files_writes. by apply foldl_store_is_Some.
  - intros Hw. apply content_ext. rewrite run_files_writes.
    by apply foldl_store_frame.
Qed.

(** *** The sampling pass and the files *)

Lemma join_not_sample f : os_path_join OUTPUT_DIR f <> sample_filename.
Proof. unfold os_path_join, OUTPUT_DIR, sample_filename. discriminate. Qed.

Lemma sample_files_lookup ss s p :
  p <> sample_filename -> sample_files ss s !! p = files s !! p.
Proof.
  intros Hp. unfold sample_files. destruct (present_before s); [|done].
  destruct (sample_read ss s); [done|].
  destruct (fs_write env _ _); [done|]. by rewrite lookup_insert_ne.
Qed.

Lemma create_sample_files ss s :
  files (create_sample_from_batches env ss s).2 = sample_files ss s.
Proof. by rewrite create_sample_eq. Qed.

Lemma create_sample_added ss s :
  added s (create_sample_from_batches env ss s).2 = sample_events ss s.
Proof. rewrite create_sample_eq. by apply added_app. Qed.

Lemma queries_of_read_events (l : list string) :
  queries_of (EvReadCsv ∘ os_path_join OUTPUT_DIR <$> l) = [].
Proof. induction l as [|f l IH]; [done|]. cbn. done. Qed.

Lemma queries_of_sample ss s : queries_of (sample_events ss s) = [].
Proof.
  unfold sample_events. destruct (present_before s); [|done].
  change (queries_of (EvPrint ?m :: ?t)) with (queries_of t).
  rewrite queries_of_app, queries_of_read_events.
  destruct (sample_read ss s); [done|]. by destruct (fs_write env _ _).
Qed.

Lemma create_sample_listing ss s f :
  f ∈ listing (create_sample_from_batches env ss s).2 <-> f ∈ listing s.
Proof.
  rewrite !listing_elem_of, create_sample_files.
  by rewrite sample_files_lookup by apply join_not_sample.
Qed.

(** X5 (the sampling pass and the files).  A sampling pass issues no
    query, creates no directory, and changes no file but the sample file:
    every other path holds what it held, the batch directory lists the
    same [.csv] files, and they hold the same tables. *)
Theorem sampling_changes_only_the_sample_file ss s :
  let r := create_sample_from_batches env ss s in
  queries_of (added s r.2) = []
  /\ dirs r.2 = dirs s
  /\ (forall p, p <> sample_filename -> files r.2 !! p = files s !! p)
  /\ csv_files r.2 = csv_files s
  /\ (forall f, content r.2 f = content s f).
Proof.
  intros r. subst r. split; [|split; [|split; [|split]]].
  - rewrite create_sample_added. apply queries_of_sample.
  - by rewrite create_sample_eq.
  - intros p Hp. rewrite create_sample_files. by apply sample_files_lookup.
  - apply csv_files_ext. intros f _. apply create_sample_listing.
  - intros f. apply content_ext. rewrite create_sample_files.
    apply sample_files_lookup, join_not_sample.
Qed.

Lemma create_sample_csv_files ss s :
  csv_files (create_sample_from_batches env ss s).2 = csv_files s.
Proof. apply csv_files_ext. intros f _. apply create_sample_listing. Qed.

Lemma create_sample_content ss s f :
  content (create_sample_from_batches env ss s).2 f = content s f.
Proof.
  apply content_ext. rewrite create_sample_files.
  apply sample_files_lookup, join_not_sample.
Qed.

Lemma create_sample_present ss s :
  present_before (create_sample_from_batches env ss s).2 = present_before s.
Proof.
  unfold present_before. rewrite create_sample_files.
  rewrite sample_files_lookup by done. by rewrite create_sample_eq.
Qed.

Lemma read_files_ext ss s s' have l :
  (forall f, content s' f = content s f) ->
  read_files ss s' have l = read_files ss s have l.
Proof.
  intros Hc. revert have. induction l as [|f l IH]; intros have; [done|].
  cbn [read_files]. rewrite Hc. by rewrite IH.
Qed.

Lemma create_sample_read ss ss' s :
  sample_read ss' (create_sample_from_batches env ss s).2 = sample_read ss' s.
Proof.
  unfold sample_read. rewrite create_sample_csv_files.
  apply read_files_ext, create_sample_content.
Qed.

Lemma create_sample_sampled ss ss' s :
  sampled ss' (create_sample_from_batches env ss s).2 = sampled ss' s.
Proof.
  unfold sampled. rewrite create_sample_read. do 2 f_equal.
  apply list_fmap_ext. intros _ f _. apply create_sample_content.
Qed.

Lemma create_sample_result ss s :
  (create_sample_from_batches env ss s).1 = sample_outcome ss s.
Proof. by rewrite create_sample_eq. Qed.

Lemma sample_outcome_again ss s :
  sample_outcome ss (create_sample_from_batches env ss s).2 = sample_outcome ss s.
Proof.
  unfold sample_outcome.
  by rewrite create_sample_present, create_sample_read, create_sample_sampled.
Qed.

Lemma sample_events_again ss s :
  sample_events ss (create_sample_from_batches env ss s).2 = sample_events ss s.
Proof.
  unfold sample_events.
  by rewrite create_sample_present, create_sample_read, create_sample_sampled.
Qed.

Lemma sample_files_again ss s :
  sample_files ss (create_sample_from_batches env ss s).2 = sample_files ss s.
Proof.
  unfold sample_files at 1.
  rewrite create_sample_present, create_sample_read, create_sample_sampled.
  rewrite create_sample_files. unfold sample_files.
  destruct (present_before s); [|done].
  destruct (sample_read ss s); [done|].
  destruct (fs_write env _ _); [done|]. by rewrite insert_insert_eq.
Qed.

(** X6 (sampling again).  A second sampling pass with the same sample
    size reads the same batch files, returns or raises the same, writes
    the same sample and leaves the files as the first pass left them: the
    sample file is never taken for a batch file. *)
Theorem sampling_again_gives_the_same_sample ss s :
  let r1 := create_sample_from_batches env ss s in
  let r2 := create_sample_from_batches env ss r1.2 in
  r2.1 = r1.1
  /\ files r2.2 = files r1.2
  /\ reads_of (added r1.2 r2.2) = reads_of (added s r1.2)
  /\ writes_of (added r1.2 r2.2) = writes_of (added s r1.2).
Proof.
  intros r1 r2. subst r1 r2.
  rewrite !create_sample_added, !create_sample_result, !create_sample_files.
  by rewrite sample_outcome_again, sample_events_again, sample_files_again.
Qed.

(** X7 (a sample size of zero or below).  With a sample size [ss <= 0],
    a batch directory that exists and holds a [.csv] file, the pass reads
    the first file only.  The table it writes is empty for [ss = 0]; for
    [ss < 0] it is the first file without its last [- ss] rows, as
    [head] cuts from the end for a negative count. *)
Theorem sampling_with_size_zero_or_below ss s :
  ss <= 0 -> present_before s = true -> csv_files s <> [] ->
  let r := create_sample_from_batches env ss s in
  exists f rest table,
    csv_files s = f :: rest
    /\ reads_of (added s r.2) = [os_path_join OUTPUT_DIR f]
    /\ table = head ss (content s f)
    /\ (ss = 0 -> table = [])
    /\ (ss < 0 ->
        table = take (length (content s f) - Z.to_nat (- ss)) (content s f))
    /\ match fs_write env sample_filename table with
       | None => writes_of (added s r.2) = [(sample_filename, table)]
                 /\ files r.2 !! sample_filename = Some table
                 /\ r.1 = Returns tt
       | Some e => writes_of (added s r.2) = [] /\ r.1 = Raises e
       end.
Proof.
  intros Hss Hp Hne r. subst r.
  destruct (csv_files s) as [|f rest] eqn:Hcsv; [done|].
  assert (Hrd : sample_read ss s = [f]).
  { unfold sample_read. rewrite Hcsv. cbn [take read_files app].
    rewrite bool_decide_true; [done|]. lia. }
  assert (Hsm : sampled ss s = head ss (content s f)).
  { unfold sampled. rewrite Hrd. cbn [fmap list_fmap concat]. by rewrite app_nil_r. }
  exists f, rest, (head ss (content s f)).
  split; [done|]. rewrite create_sample_added, create_sample_eq. cbn [fst snd files].
  unfold sample_events, sample_outcome, sample_files. rewrite Hp, Hrd, Hsm.
  split; [|split; [done|split; [|split]]].
  - rewrite reads_of_print, reads_of_app, reads_of_read_events.
    destruct (fs_write env _ _); cbn; done.
  - intros ->. unfold head. by rewrite bool_decide_true.
  - intros Hneg. unfold head. by rewrite bool_decide_false by lia.
  - destruct (fs_write env sample_filename _).
    + rewrite writes_of_print, writes_of_app, writes_of_read_events. done.
    + rewrite writes_of_print, writes_of_app, writes_of_read_events.
      split; [done|]. split; [apply lookup_insert_eq|done].
Qed.

(** *** The entry point of the batch script *)

Lemma script_bind_done {A C} (m : Script coord A) (f : A -> Script coord C) σ a σ' :
  m σ = (Done a, σ') -> (m ≫= f) σ = f a σ'.
Proof. unfold mbind, Script_bind. by intros ->. Qed.

Lemma say_eq m (σ : Session coord) : say m σ = (Done tt, session_with σ (disk σ) [m]).
Proof. reflexivity. Qed.

Lemma session_with_with (σ : Session coord) s s' l l' :
  session_with (session_with σ s l) s' l' = session_with σ s' (l ++ l').
Proof. unfold session_with. cbn. by rewrite (assoc_L (++)). Qed.

Lemma session_with_disk (σ : Session coord) s l : disk (session_with σ s l) = s.
Proof. done. Qed.

Lemma run_returns_true B s v :
  (batch_import_bigquery_data env B s).1 = Returns v -> v = true.
Proof.
  destruct (src_count env) as [R|e] eqn:Hc.
  - rewrite (run_count_returns _ _ _ Hc). cbn [fst].
    destruct (combine_outcome _); [done|]. by intros [= <-].
  - by rewrite (run_count_raises _ _ _ Hc).
Qed.

Lemma select_batch_size_eq choice (σ : Session coord) :
  select_batch_size choice σ
  = (Done (chosen choice),
     session_with σ (disk σ)
       (if is_option choice then [] else [SaidDefaultBatchSize 100000])).
Proof.
  unfold select_batch_size, chosen, is_option, session_with.
  destruct (decide (choice = literal "1")) as [->|H1].
  { rewrite bool_decide_true by auto. rewrite app_nil_r. by destruct σ. }
  destruct (decide (choice = literal "2")) as [->|H2].
  { rewrite bool_decide_true by auto. rewrite app_nil_r. by destruct σ. }
  destruct (decide (choice = literal "3")) as [->|H3].
  { rewrite bool_decide_true by auto. rewrite app_nil_r. by destruct σ. }
  rewrite bool_decide_false by (intros [?|[?|?]]; done). done.
Qed.

Lemma batch_main_eq (h : Host) (σ : Session coord) :
  batch_main env h σ = (Done tt, batch_main_session h σ).
Proof.
  unfold batch_main, batch_main_session, batch_main_end, banner, choice_lines,
    all_done, session_with.
  cbv [mbind Script_bind mret Script_ret say pass try_interrupt_exception
       input call_batch_import bigquery_Client call].
  destruct (credentials_set h), (keyboard h) as [line| |];
    cbn [disk console fst snd];
    rewrite ?select_batch_size_eq; unfold session_with;
    cbn [disk console fst snd];
    try (destruct (is_option (strip line)), (client_init h) as [e0|];
         cbn [disk console fst snd];
         try (destruct (batch_import_bigquery_data env (chosen (strip line))
                          (disk σ)) as [[v|e1] s1] eqn:Hrun;
              cbn [disk console fst snd];
              [assert (v = true) as ->
                 by (eapply run_returns_true; by rewrite Hrun);
               cbn [disk console fst snd];
               destruct (create_sample_from_batches env default_sample_size s1)
                 as [[[]|e2] s2]; cbn [disk console fst snd]|]));
    rewrite <- ?(assoc_L (++)); reflexivity.
Qed.

Lemma batch_main_result h (σ : Session coord) : (batch_main env h σ).1 = Done tt.
Proof. by rewrite batch_main_eq. Qed.

Lemma batch_main_disk h (σ : Session coord) :
  disk (batch_main env h σ).2 = (batch_main_end h (disk σ)).1.
Proof. by rewrite batch_main_eq. Qed.

Lemma batch_main_said h (σ : Session coord) :
  said σ (batch_main env h σ).2 = banner h ++ (batch_main_end h (disk σ)).2.
Proof.
  rewrite batch_main_eq. unfold said, batch_main_session, session_with.
  cbn [snd console]. by rewrite drop_app_length.
Qed.

Lemma lstrip_spaces pre t :
  Forall (fun c => isspace c = true) pre -> lstrip (pre ++ t) = lstrip t.
Proof. induction 1 as [|c pre Hc _ IH]; [done|]. cbn. by rewrite Hc. Qed.

Lemma lstrip_app t post :
  lstrip (t ++ post) = if decide (lstrip t = []) then lstrip post
                       else lstrip t ++ post.
Proof.
  induction t as [|c t IH]; [done|]. cbn [app lstrip].
  destruct (isspace c); [done|]. by rewrite decide_False.
Qed.

Lemma rstrip_spaces t post :
  Forall (fun c => isspace c = true) post -> rstrip (t ++ post) = rstrip t.
Proof.
  intros Hp. unfold rstrip. rewrite reverse_app.
  by rewrite lstrip_spaces by by apply Forall_reverse.
Qed.

Lemma strip_spaces pre line post :
  Forall (fun c => isspace c = true) pre ->
  Forall (fun c => isspace c = true) post ->
  strip (pre ++ line ++ post) = strip line.
Proof.
  intros Hpre Hpost. unfold strip. rewrite lstrip_spaces by done.
  rewrite lstrip_app. case_decide as Hl.
  - rewrite Hl. replace (lstrip post) with (lstrip (post ++ [])) by by rewrite app_nil_r.
    by rewrite lstrip_spaces.
  - by apply rstrip_spaces.
Qed.

Lemma added_trans s s1 s2 a b :
  trace s1 = trace s ++ a -> trace s2 = trace s1 ++ b -> added s s2 = a ++ b.
Proof.
  intros H1 H2. apply added_app. by rewrite H2, H1, (assoc_L (++)).
Qed.

Lemma create_sample_trace ss s :
  trace (create_sample_from_batches env ss s).2 = trace s ++ sample_events ss s.
Proof. by rewrite create_sample_eq. Qed.

Lemma added_run_then_sample B ss s :
  added s (create_sample_from_batches env ss (batch_import_bigquery_data env B s).2).2
  = added s (batch_import_bigquery_data env B s).2
    ++ sample_events ss (batch_import_bigquery_data env B s).2.
Proof. eapply added_trans; [apply run_trace|apply create_sample_trace]. Qed.

Lemma chosen_cases choice :
  0 < chosen choice
  /\ (chosen choice = 50000 <-> choice = literal "1")
  /\ (chosen choice = 250000 <-> choice = literal "3")
  /\ (chosen choice = 100000 <-> choice <> literal "1" /\ choice <> literal "3").
Proof.
  unfold chosen.
  destruct (decide (choice = literal "1")) as [->|H1];
    [|destruct (decide (choice = literal "3")) as [->|H3]].
  - split; [lia|]. split; [done|]. split; split; try done; try lia.
    intros [? _]. done.
  - split; [lia|]. split; [split; [lia|done]|]. split; [done|].
    split; [lia|]. intros [_ ?]. done.
  - split; [lia|]. split; [split; [lia|done]|]. split; [split; [lia|done]|].
    done.
Qed.

Lemma default_announced choice :
  SaidDefaultBatchSize 100000 ∈ choice_lines choice
  <-> choice <> literal "1" /\ choice <> literal "2" /\ choice <> literal "3".
Proof.
  unfold choice_lines, is_option. case_bool_decide as Hc.
  - rewrite app_nil_l, list_elem_of_singleton. split; [done|]. tauto.
  - cbn [app]. rewrite elem_of_cons. split; [|by left].
    intros _. tauto.
Qed.

Lemma batch_main_end_typed h s line :
  keyboard h = Typed line -> client_init h = None ->
  let r1 := batch_import_bigquery_data env (chosen (strip line)) s in
  let r2 := create_sample_from_batches env default_sample_size r1.2 in
  batch_main_end h s
  = match r1.1, r2.1 with
    | Raises e, _ => (r1.2, choice_lines (strip line) ++ [SaidUnexpectedError e])
    | Returns _, Raises e =>
        (r2.2, choice_lines (strip line) ++ [SaidUnexpectedError e])
    | Returns _, Returns _ => (r2.2, choice_lines (strip line) ++ all_done)
    end.
Proof.
  intros Hk Hc r1 r2. unfold batch_main_end. rewrite Hk, Hc. cbn zeta.
  fold r1. fold r2. destruct r1.1; [|done]. by destruct r2.1.
Qed.

(** A line is not in a list of lines that all differ from it. *)
Ltac not_in_list :=
  repeat (apply not_elem_of_cons; split; [discriminate|]);
  apply not_elem_of_nil.

Lemma banner_no_default h : SaidDefaultBatchSize 100000 ∉ banner h.
Proof.
  unfold banner. destruct (credentials_set h); cbn [app]; not_in_list.
Qed.

(** X8 (the answer at the prompt).  When a line is typed and the client
    is built, the export runs with the batch size the stripped line
    selects: 50000 for [1], 250000 for [3], 100000 for [2] and for any
    other line, the empty one too; the default is announced exactly when
    the stripped line is none of [1], [2], [3].  The size is positive in
    every case, white space around the answer changes nothing, and the
    batch queries of the script are those of the export with that size. *)
Theorem batch_size_follows_the_answer h (σ : Session coord) line :
  keyboard h = Typed line -> client_init h = None ->
  let b := chosen (strip line) in
  let r := batch_main env h σ in
  0 < b
  /\ (b = 50000 <-> strip line = literal "1")
  /\ (b = 250000 <-> strip line = literal "3")
  /\ (b = 100000 <-> strip line <> literal "1" /\ strip line <> literal "3")
  /\ SaidStartingBatchImport b ∈ said σ r.2
  /\ (SaidDefaultBatchSize 100000 ∈ said σ r.2
      <-> strip line <> literal "1" /\ strip line <> literal "2"
          /\ strip line <> literal "3")
  /\ queries_of (added (disk σ) (disk r.2))
     = queries_of (added (disk σ) (batch_import_bigquery_data env b (disk σ)).2)
  /\ (forall pre post,
        Forall (fun c => isspace c = true) pre ->
        Forall (fun c => isspace c = true) post ->
        chosen (strip (pre ++ line ++ post)) = b).
Proof.
  intros Hk Hc b r. subst b r.
  destruct (chosen_cases (strip line)) as (Hpos & H1 & H3 & H2).
  do 4 (split; [done|]).
  rewrite batch_main_said, batch_main_disk.
  rewrite (batch_main_end_typed h (disk σ) line Hk Hc).
  set (r1 := batch_import_bigquery_data env (chosen (strip line)) (disk σ)).
  set (r2 := create_sample_from_batches env default_sample_size r1.2).
  assert (Hst : SaidStartingBatchImport (chosen (strip line))
                ∈ choice_lines (strip line))
    by (unfold choice_lines; apply elem_of_app; right; by left).
  split; [|split; [|split]].
  - apply elem_of_app. right.
    destruct r1.1; [destruct r2.1|]; cbn [snd]; apply elem_of_app; by left.
  - rewrite <- default_announced. split.
    + intros [Hb|Hin]%elem_of_app; [by apply banner_no_default in Hb|].
      destruct r1.1; [destruct r2.1|]; cbn [snd] in Hin;
        apply elem_of_app in Hin as [Hin|Hin]; try done;
        exfalso; revert Hin; unfold all_done; not_in_list.
    + intros Hin. apply elem_of_app. right.
      destruct r1.1; [destruct r2.1|]; cbn [snd]; apply elem_of_app; by left.
  - destruct r1.1 eqn:Hr1; [|done].
    assert (Hq : queries_of (added (disk σ) r2.2) = queries_of (added (disk σ) r1.2)).
    { unfold r2, r1. rewrite added_run_then_sample, queries_of_app.
      by rewrite queries_of_sample, app_nil_r. }
    by destruct r2.1.
  - intros pre post Hpre Hpost. by rewrite strip_spaces.
Qed.

Lemma banner_no_all_done h : SaidAllDone OUTPUT_DIR ∉ banner h.
Proof.
  unfold banner. destruct (credentials_set h); cbn [app]; not_in_list.
Qed.

Lemma choice_lines_no_all_done choice : SaidAllDone OUTPUT_DIR ∉ choice_lines choice.
Proof.
  unfold choice_lines. destruct (is_option choice); cbn [app]; not_in_list.
Qed.

(** X9 (errors end at the top level).  The batch script always ends
    normally.  Ctrl-C at the prompt prints the two lines of the interrupt
    and nothing is queried or written.  Every exception - the end of the
    input at the prompt, a client that cannot be built, an error the
    export raises, an error the sampling pass raises - is printed as an
    unexpected error, and it is the last line; after an error of the
    export the sampling pass is not run.  The closing lines are printed
    exactly when a line was typed, the client was built and both the
    export and the sampling pass returned. *)
Theorem batch_main_ends_normally h (σ : Session coord) :
  let r := batch_main env h σ in
  let run line := batch_import_bigquery_data env (chosen (strip line)) (disk σ) in
  let sample line :=
    create_sample_from_batches env default_sample_size (run line).2 in
  r.1 = Done tt
  /\ (keyboard h = CtrlC ->
      disk r.2 = disk σ
      /\ said σ r.2 = banner h ++ [SaidInterrupted; SaidPartialFiles])
  /\ (keyboard h = EndOfFile ->
      disk r.2 = disk σ
      /\ said σ r.2 = banner h ++ [SaidUnexpectedError EOFError])
  /\ (forall line e, keyboard h = Typed line -> client_init h = Some e ->
      disk r.2 = disk σ
      /\ said σ r.2
         = banner h ++ choice_lines (strip line) ++ [SaidUnexpectedError e])
  /\ (forall line e, keyboard h = Typed line -> client_init h = None ->
      (run line).1 = Raises e ->
      disk r.2 = (run line).2
      /\ said σ r.2
         = banner h ++ choice_lines (strip line) ++ [SaidUnexpectedError e])
  /\ (forall line e, keyboard h = Typed line -> client_init h = None ->
      (run line).1 = Returns true -> (sample line).1 = Raises e ->
      disk r.2 = (sample line).2
      /\ said σ r.2
         = banner h ++ choice_lines (strip line) ++ [SaidUnexpectedError e])
  /\ (SaidAllDone OUTPUT_DIR ∈ said σ r.2
      <-> exists line, keyboard h = Typed line /\ client_init h = None
                       /\ (run line).1 = Returns true
                       /\ (sample line).1 = Returns tt).
Proof.
  intros r run sample. subst r run sample. cbn beta.
  rewrite batch_main_result, batch_main_said, batch_main_disk.
  split; [done|].
  split; [intros Hk; unfold batch_main_end; by rewrite Hk|].
  split; [intros Hk; unfold batch_main_end; by rewrite Hk|].
  split; [intros line e Hk Hc; unfold batch_main_end; by rewrite Hk, Hc|].
  split; [intros line e Hk Hc He;
          rewrite (batch_main_end_typed h (disk σ) line Hk Hc); by rewrite He|].
  split; [intros line e Hk Hc Hr He;
          rewrite (batch_main_end_typed h (disk σ) line Hk Hc); by rewrite Hr, He|].
  pose proof (banner_no_all_done h) as Hb.
  split.
  - intros [Hin|Hin]%elem_of_app; [done|]. revert Hin. unfold batch_main_end.
    destruct (keyboard h) as [line| |]; cbn [snd]; [|intros Hin; exfalso; revert Hin; not_in_list..].
    pose proof (choice_lines_no_all_done (strip line)) as Hc.
    destruct (client_init h) as [e|]; cbn [snd].
    { intros [?|Hin]%elem_of_app; [done|]. exfalso; revert Hin; not_in_list. }
    cbn zeta.
    destruct (batch_import_bigquery_data env _ _).1 as [v|e] eqn:Hr; cbn [snd].
    2:{ intros [?|Hin]%elem_of_app; [done|]. exfalso; revert Hin; not_in_list. }
    apply run_returns_true in Hr as Hv. subst v.
    destruct (create_sample_from_batches env _ _).1 as [[]|e] eqn:Hs; cbn [snd].
    2:{ intros [?|Hin]%elem_of_app; [done|]. exfalso; revert Hin; not_in_list. }
    intros _. by exists line.
  - intros (line & Hk & Hc & Hr & Hs). apply elem_of_app. right.
    rewrite (batch_main_end_typed h (disk σ) line Hk Hc), Hr, Hs. cbn [snd].
    apply elem_of_app. right. by left.
Qed.





(** *** The characters of a batch file name *)

Lemma all_chars_app P (a b : string) :
  all_chars P (a +:+ b) = all_chars P a && all_chars P b.
Proof.
  induction a as [|c a IH]; [done|].
  change (String c a +:+ b) with (String c (a +:+ b)).
  cbn [all_chars]. by rewrite IH, andb_assoc.
Qed.





Lemma pretty_N_char_digit x : is_digit (pretty_N_char x) = true.
Proof. unfold pretty_N_char. by repeat case_match. Qed.

Lemma pretty_N_go_digits x (s : string) :
  all_chars is_digit s = true -> all_chars is_digit (pretty_N_go x s) = true.
Proof.
  revert s. induction (N.lt_wf_0 x) as [x _ IH]; intros s Hs.
  destruct (decide (x = 0)%N) as [->|Hx]; [by rewrite pretty_N_go_0|].
  rewrite pretty_N_go_step by lia. apply IH; [apply N.div_lt; lia|].
  cbn [all_chars]. by rewrite pretty_N_char_digit.
Qed.

Lemma pretty_abs_digits z : all_chars is_digit (pretty (Z.abs z)) = true.
Proof.
  assert (forall p : positive, all_chars is_digit (pretty (Z.pos p)) = true) as Hp.
  { intros p. change (pretty (Z.pos p)) with (pretty (N.pos p)).
    unfold pretty, pretty_N. rewrite decide_False by done.
    by apply pretty_N_go_digits. }
  destruct z; [done|apply Hp..].
Qed.

Lemma zeros_digits n : all_chars is_digit (Fmt.zeros n) = true.
Proof. induction n as [|n IH]; [done|]. cbn. by rewrite IH. Qed.

Lemma d04_digits k : 0 <= k -> all_chars is_digit (Fmt.d04 k) = true.
Proof.
  intros Hk. unfold Fmt.d04, Fmt.sign. rewrite bool_decide_false by lia.
  by rewrite !all_chars_app, zeros_digits, pretty_abs_digits.
Qed.






Lemma batch_filename_entry k rows :
  batch_filename k rows = os_path_join OUTPUT_DIR (batch_entry k rows).
Proof. reflexivity. Qed.




(** *** The order of the batch file names *)

Lemma pretty_N_char_nonzero x :
  (0 < x < 10)%N -> nonzero_digit (pretty_N_char x) = true.
Proof.
  intros Hx.
  assert (x = 1 \/ x = 2 \/ x = 3 \/ x = 4 \/ x = 5 \/ x = 6 \/ x = 7 \/ x = 8
          \/ x = 9)%N as Hc by lia.
  repeat destruct Hc as [->|Hc]; try done. by subst.
Qed.

Lemma pretty_N_go_head x (t : string) :
  (0 < x)%N ->
  exists c rest, pretty_N_go x t = String c rest /\ nonzero_digit c = true.
Proof.
  revert t. induction (N.lt_wf_0 x) as [x _ IH]; intros t Hx.
  rewrite pretty_N_go_step by done.
  destruct (decide (x `div` 10 = 0)%N) as [Hd|Hd].
  - rewrite Hd, pretty_N_go_0. eexists _, _. split; [done|].
    apply pretty_N_char_nonzero. apply N.div_small_iff in Hd; [|done].
    rewrite N.mod_small by done. lia.
  - apply IH; [apply N.div_lt; lia|by apply N.neq_0_lt_0].
Qed.


Lemma pretty_pos k :
  0 < k -> pretty (Z.abs k) = pretty_N_go (Z.to_N k) "".
Proof. intros Hk. destruct k as [|p|p]; try lia. done. Qed.

Lemma pretty_head k :
  0 < k ->
  exists c rest, pretty (Z.abs k) = String c rest /\ nonzero_digit c = true.
Proof. intros Hk. rewrite pretty_pos by done. apply pretty_N_go_head. lia. Qed.



Lemma zeros_app_inj a a' (P P' : string) :
  (exists c rest, P = String c rest /\ nonzero_digit c = true) ->
  (exists c rest, P' = String c rest /\ nonzero_digit c = true) ->
  Fmt.zeros a +:+ P = Fmt.zeros a' +:+ P' -> P = P'.
Proof.
  intros (c & r & -> & Hc) (c' & r' & -> & Hc').
  revert a'. induction a as [|a IH]; intros [|a']; cbn [Fmt.zeros].
  - done.
  - change ("" +:+ ?x) with x.
    change (String "0" ?z +:+ ?x) with (String "0" (z +:+ x)).
    intros [= -> _]. done.
  - change ("" +:+ ?x) with x.
    change (String "0" ?z +:+ ?x) with (String "0" (z +:+ x)).
    intros [= <- _]. done.
  - change (String "0" ?z +:+ ?x) with (String "0" (z +:+ x)).
    intros [= H]. by apply (IH a').
Qed.

Lemma d04_inj k k' : 0 < k -> 0 < k' -> Fmt.d04 k = Fmt.d04 k' -> k = k'.
Proof.
  intros Hk Hk'. unfold Fmt.d04, Fmt.sign. rewrite !bool_decide_false by lia.
  change ("" +:+ ?x) with x.
  intros H%zeros_app_inj; [|by apply pretty_head..].
  apply (inj pretty) in H. lia.
Qed.

Lemma digits_split (A A' Y Y' : string) :
  all_chars is_digit A = true -> all_chars is_digit A' = true ->
  A +:+ String "_" Y = A' +:+ String "_" Y' -> A = A'.
Proof.
  revert A'. induction A as [|c A IH]; intros [|c' A'] HA HA'.
  - done.
  - change ("" +:+ ?x) with x.
    change (String c' A' +:+ ?x) with (String c' (A' +:+ x)).
    intros [= <- _]. done.
  - change ("" +:+ ?x) with x.
    change (String c A +:+ ?x) with (String c (A +:+ x)).
    intros [= -> _]. done.
  - change (String c A +:+ ?x) with (String c (A +:+ x)).
    change (String c' A' +:+ ?x) with (String c' (A' +:+ x)).
    cbn [all_chars] in HA, HA'.
    apply andb_true_iff in HA as [_ HA]. apply andb_true_iff in HA' as [_ HA'].
    intros [= -> H]. f_equal. by apply IH.
Qed.

Lemma batch_entry_inj k k' rows rows' :
  0 < k -> 0 < k' -> batch_entry k rows = batch_entry k' rows' -> k = k'.
Proof.
  intros Hk Hk'. unfold batch_entry. intros H%(inj (String.append "batch_")).
  apply digits_split in H; [|apply d04_digits; lia..].
  by apply d04_inj.
Qed.









(** *** The batch files of a run that goes through *)




Lemma combine_files_lookup acc (m : gmap string (DataFrame coord)) p :
  p <> combined_filename -> combine_files acc m !! p = m !! p.
Proof.
  intros Hp. unfold combine_files. destruct acc; [done|].
  destruct (fs_write env _ _); [done|]. by rewrite lookup_insert_ne.
Qed.

Lemma foldl_store_lookup (m : gmap string (DataFrame coord)) W p df :
  NoDup W.*1 -> (p, df) ∈ W -> foldl store m W !! p = Some df.
Proof.
  revert m. induction W as [|w W IH]; intros m Hnd Hin; [by apply elem_of_nil in Hin|].
  rewrite fmap_cons in Hnd. apply NoDup_cons in Hnd as [Hw Hnd].
  cbn [foldl]. apply elem_of_cons in Hin as [<-|Hin].
  - rewrite foldl_store_frame by done. unfold store. cbn. apply lookup_insert_eq.
  - by apply IH.
Qed.














Lemma sample_written ss s :
  present_before s = true -> sample_read ss s <> [] ->
  let r := create_sample_from_batches env ss s in
  match fs_write env sample_filename (sampled ss s) with
  | None =>
      writes_of (added s r.2) = [(sample_filename, sampled ss s)]
      /\ files r.2 !! sample_filename = Some (sampled ss s)
      /\ r.1 = Returns tt
  | Some e => writes_of (added s r.2) = [] /\ r.1 = Raises e
  end.
Proof.
  intros Hp Hne r. subst r. rewrite create_sample_added, create_sample_eq.
  cbn [fst snd files]. unfold sample_events, sample_outcome, sample_files.
  rewrite Hp. destruct (sample_read ss s) as [|f l]; [done|].
  rewrite writes_of_print, writes_of_app, writes_of_read_events.
  destruct (fs_write env sample_filename (sampled ss s)); [done|].
  split; [done|]. split; [apply lookup_insert_eq|done].
Qed.






(** *** The one-shot scripts against their reading *)

Lemma after_nothing {A} (σ : Session coord) (o : Outcome A) : (o, σ) = after σ (o, [], []).
Proof.
  unfold after, applied. cbn. rewrite !app_nil_r.
  by destruct σ as [[] ?].
Qed.

Lemma import_all_eq h (σ : Session coord) :
  import_all_bigquery_data env h σ = after σ (import_all_run h).
Proof.
  unfold import_all_bigquery_data, import_all_run.
  cbv [mbind Script_bind mret Script_ret say pass try_exception
       bigquery_Client call query_count client_query to_csv emit].
  destruct (client_init h) as [e0|]; [apply after_nothing|].
  cbn [disk console fst snd files dirs trace all_data sample_data].
  destruct (src_count env) as [R|e1];
    cbn [disk console fst snd files dirs trace all_data sample_data].
  2:{ unfold after, applied. cbn. by rewrite <- ?(assoc_L (++)). }
  destruct (bool_decide (1000000 < R));
    cbn [disk console fst snd files dirs trace all_data sample_data];
    (destruct (src_query env all_query) as [df|e2];
     cbn [disk console fst snd files dirs trace all_data sample_data];
     [destruct (fs_write env all_output_file df) as [e3|];
      cbn [disk console fst snd files dirs trace all_data sample_data];
      [|destruct (fs_write env all_sample_file (head 1000 df)) as [e4|];
         cbn [disk console fst snd files dirs trace all_data sample_data]]|]);
    unfold after, applied; cbn; by rewrite <- ?(assoc_L (++)).
Qed.


Lemma simple_test_eq h (σ : Session coord) :
  simple_bigquery_test env h σ = after σ (simple_test_run h).
Proof.
  unfold simple_bigquery_test, simple_test_run.
  cbv [mbind Script_bind mret Script_ret say pass try_exception
       bigquery_Client call client_query emit].
  destruct (client_init h) as [e0|];
    cbn [disk console fst snd files dirs trace all_data sample_data].
  { unfold after, applied. cbn. rewrite app_nil_r, <- ?(assoc_L (++)).
    by destruct σ as [[] ?]. }
  destruct (src_query env (limit_query 3)) as [df|e2];
    cbn [disk console fst snd files dirs trace all_data sample_data];
    unfold after, applied; cbn; by rewrite <- ?(assoc_L (++)).
Qed.

Lemma test_connection_eq h (σ : Session coord) :
  test_bigquery_connection env h σ = after σ (test_connection_run h).
Proof.
  unfold test_bigquery_connection, test_connection_run.
  cbv [mbind Script_bind mret Script_ret say pass try_exception
       bigquery_Client call client_query emit].
  destruct (client_init h) as [e0|];
    cbn [disk console fst snd files dirs trace all_data sample_data].
  { unfold after, applied. cbn. rewrite app_nil_r, <- ?(assoc_L (++)).
    by destruct σ as [[] ?]. }
  destruct (src_query env (limit_query 5)) as [df|e2];
    cbn [disk console fst snd files dirs trace all_data sample_data];
    unfold after, applied; cbn; by rewrite <- ?(assoc_L (++)).
Qed.

Lemma after_result {A} (σ : Session coord) (r : Run A) : (after σ r).1 = r.1.1.
Proof. done. Qed.

Lemma after_files {A} (σ : Session coord) (r : Run A) :
  files (disk (after σ r).2) = foldl store (files (disk σ)) (writes_of r.1.2).
Proof. done. Qed.

Lemma after_added {A} (σ : Session coord) (r : Run A) :
  added (disk σ) (disk (after σ r).2) = r.1.2.
Proof. unfold after, applied. cbn. by apply added_app. Qed.

Lemma after_said {A} (σ : Session coord) (r : Run A) : said σ (after σ r).2 = r.2.
Proof. unfold after, said. cbn. by rewrite drop_app_length. Qed.

Lemma after_dirs {A} (σ : Session coord) (r : Run A) :
  dirs (disk (after σ r).2) = dirs (disk σ).
Proof. done. Qed.

Lemma head_first n (df : DataFrame coord) : 0 <= n -> head n df = take (Z.to_nat n) df.
Proof. intros Hn. unfold head. by rewrite bool_decide_true. Qed.

(** X13 (what [import_all_bigquery_data] returns).  When the function
    returns a table, it is the answer to the one query without [LIMIT],
    and both files were written: the complete file holds the table and
    the sample file its first 1000 rows.  The only exception that leaves
    the function is the one of building the client, which happens before
    the [try]; every other error is printed and turned into [None]. *)
Theorem import_all_returns_what_it_saved h (σ : Session coord) :
  let r := import_all_bigquery_data env h σ in
  (forall df, r.1 = Done (Some df) ->
     client_init h = None
     /\ src_query env all_query = Returns df
     /\ queries_of (added (disk σ) (disk r.2)) = [all_query]
     /\ writes_of (added (disk σ) (disk r.2))
        = [(all_output_file, df); (all_sample_file, head 1000 df)]
     /\ files (disk r.2) !! all_output_file = Some df
     /\ files (disk r.2) !! all_sample_file = Some (head 1000 df)
     /\ head 1000 df = take (Z.to_nat 1000) df)
  /\ (forall e, r.1 = Thrown e <-> client_init h = Some e)
  /\ r.1 <> Interrupted
  /\ (r.1 = Done None ->
      exists e,
        SaidError e ∈ said σ r.2
        /\ (src_count env = Raises e
            \/ src_query env all_query = Raises e
            \/ exists df, src_query env all_query = Returns df
                 /\ (fs_write env all_output_file df = Some e
                     \/ fs_write env all_sample_file (head 1000 df) = Some e))).
Proof.
  intros r. subst r. rewrite import_all_eq.
  rewrite after_result, after_files, after_added, after_said.
  unfold import_all_run.
  destruct (client_init h) as [e0|]; cbn [fst snd].
  { split; [done|]. split; [|done]. intros e. split; congruence. }
  destruct (src_count env) as [R|e1]; cbn [fst snd].
  2:{ split; [done|]. split; [done|]. split; [done|]. intros _. exists e1.
      split; [|by left]. apply elem_of_app. right. by left. }
  destruct (src_query env all_query) as [df|e2]; cbn [fst snd].
  2:{ split; [done|]. split; [done|]. split; [done|]. intros _. exists e2.
      split; [|by right; left]. apply elem_of_app. right. by left. }
  destruct (fs_write env all_output_file df) as [e3|] eqn:Hw1; cbn [fst snd].
  { split; [done|]. split; [done|]. split; [done|]. intros _. exists e3.
    split; [|right; right; exists df; by auto]. apply elem_of_app. right. by left. }
  destruct (fs_write env all_sample_file (head 1000 df)) as [e4|] eqn:Hw2;
    cbn [fst snd].
  { split; [done|]. split; [done|]. split; [done|]. intros _. exists e4.
    split; [|right; right; exists df; by auto].
    apply elem_of_app. right. apply elem_of_app. right. by left. }
  split; [|done]. intros df' [= <-].
  split; [done|]. split; [done|]. split; [done|]. split; [done|].
  split; [|split; [|by apply head_first]]; cbn; unfold store; cbn.
  - rewrite lookup_insert_ne by done. apply lookup_insert_eq.
  - apply lookup_insert_eq.
Qed.


Lemma import_all_main_eq h (σ : Session coord) :
  import_all_main env h σ = after σ (import_all_main_run h).
Proof.
  unfold import_all_main, import_all_main_run.
  cbv [mbind Script_bind mret Script_ret say pass].
  destruct (credentials_set h); cbn [disk console fst snd];
    rewrite import_all_eq; unfold after;
    destruct (import_all_run h) as [[[[df|]|e|] evs] ls];
    cbn [disk console fst snd];
    rewrite <- ?(assoc_L (++)); reflexivity.
Qed.

(** A line is in a list of lines that is written out. *)
Ltac in_list := cbn [app]; solve [repeat first [by left | right]].

(** X15 (the entry point of [import_all_data.py]).  The script announces
    that the import completed, and the two files, only when both were
    written: the complete file then holds the table of the query and the
    sample file its first 1000 rows.  When the client is built the script
    ends normally with exactly one of the two closing messages; when it is
    not, the exception leaves the script uncaught, before anything is
    queried or written. *)
Theorem import_all_main_announces_only_saved_files h (σ : Session coord) :
  let r := import_all_main env h σ in
  (SaidImportCompleted ∈ said σ r.2 ->
     exists df,
       src_query env all_query = Returns df
       /\ files (disk r.2) !! all_output_file = Some df
       /\ files (disk r.2) !! all_sample_file = Some (head 1000 df)
       /\ SaidTotalImported (length df) ∈ said σ r.2
       /\ SaidImportFailed ∉ said σ r.2)
  /\ (client_init h = None ->
      r.1 = Done tt
      /\ (SaidImportCompleted ∈ said σ r.2 \/ SaidImportFailed ∈ said σ r.2))
  /\ (forall e, client_init h = Some e ->
      r.1 = Thrown e
      /\ added (disk σ) (disk r.2) = []
      /\ files (disk r.2) = files (disk σ)
      /\ (SaidImportCompleted ∉ said σ r.2)
      /\ (SaidImportFailed ∉ said σ r.2)).
Proof.
  intros r. subst r.
  rewrite import_all_main_eq, after_result, after_files, after_added, after_said.
  unfold import_all_main_run, import_all_run.
  destruct (credentials_set h), (client_init h) as [e0|]; cbn [fst snd app];
    try (split; [intros Hin; exfalso; revert Hin; not_in_list|];
         split; [done|]; intros e [= <-];
         repeat (split; [done|]); split; not_in_list).
  all: destruct (src_count env) as [R|e1]; cbn [fst snd app];
    try (split; [intros Hin; exfalso; revert Hin; not_in_list|];
         split; [|done]; intros _; split; [done|]; right; in_list).
  all: destruct (bool_decide (1000000 < R)),
         (src_query env all_query) as [df|e2]; cbn [fst snd app];
    try (split; [intros Hin; exfalso; revert Hin; not_in_list|];
         split; [|done]; intros _; split; [done|]; right; in_list).
  all: destruct (fs_write env all_output_file df) as [e3|]; cbn [fst snd app];
    try (split; [intros Hin; exfalso; revert Hin; not_in_list|];
         split; [|done]; intros _; split; [done|]; right; in_list).
  all: destruct (fs_write env all_sample_file (head 1000 df)) as [e4|];
    cbn [fst snd app];
    try (split; [intros Hin; exfalso; revert Hin; not_in_list|];
         split; [|done]; intros _; split; [done|]; right; in_list).
  all: split; [|split; [|done]; intros _; split; [done|]; left; in_list].
  all: intros _; exists df; split; [done|]; cbn; unfold store; cbn.
  all: split; [rewrite lookup_insert_ne by done; apply lookup_insert_eq|].
  all: split; [apply lookup_insert_eq|]; split; [in_list|not_in_list].
Qed.



(** X17 (the two connection tests).  [simple_bigquery_test] and
    [test_bigquery_connection] never raise: the client is built inside
    their [try].  Each returns [True] exactly when the client is built
    and its query answers, and [False] otherwise.  Neither writes a file,
    and each issues at most its one query, with [LIMIT 3] and [LIMIT 5]
    after the select clause of the batch query. *)
Theorem connection_tests_write_nothing h (σ : Session coord) :
  let r3 := simple_bigquery_test env h σ in
  let r5 := test_bigquery_connection env h σ in
  (r3.1 = Done true
   <-> client_init h = None
       /\ exists df, src_query env (limit_query 3) = Returns df)
  /\ (r3.1 = Done true \/ r3.1 = Done false)
  /\ files (disk r3.2) = files (disk σ)
  /\ writes_of (added (disk σ) (disk r3.2)) = []
  /\ queries_of (added (disk σ) (disk r3.2))
     = match client_init h with
       | Some _ => []
       | None => [limit_query 3]
       end
  /\ (r5.1 = Done true
      <-> client_init h = None
          /\ exists df, src_query env (limit_query 5) = Returns df)
  /\ (r5.1 = Done true \/ r5.1 = Done false)
  /\ files (disk r5.2) = files (disk σ)
  /\ writes_of (added (disk σ) (disk r5.2)) = []
  /\ queries_of (added (disk σ) (disk r5.2))
     = match client_init h with
       | Some _ => []
       | None => [limit_query 5]
       end
  /\ (forall n, limit_query n
                = select_clause +:+ "LIMIT " +:+ Fmt.str n +:+ Fmt.nl
                  +:+ "        ").
Proof.
  intros r3 r5. subst r3 r5. rewrite simple_test_eq, test_connection_eq.
  rewrite !after_result, !after_files, !after_added.
  unfold simple_test_run, test_connection_run.
  destruct (client_init h) as [e0|]; cbn [fst snd].
  { split; [split; [done|by intros [? _]]|]. split; [by right|].
    do 3 (split; [done|]).
    split; [split; [done|by intros [? _]]|]. split; [by right|]. done. }
  destruct (src_query env (limit_query 3)) as [df3|e3],
           (src_query env (limit_query 5)) as [df5|e5]; cbn [fst snd];
    repeat match goal with
           | |- _ /\ _ => split
           | |- _ <-> _ => split
           | |- Done true = Done true \/ _ => by left
           | |- Done false = Done true \/ _ => by right
           | |- Done true = Done true -> _ => intros _; split; [done|by eexists]
           | |- _ /\ (exists _, Raises _ = Returns _) -> _ => by intros [_ [? ?]]
           | |- _ => done
           end.
Qed.

(** *** The batch files at the end of a run *)

Lemma kept_paths_NoDup B l :
  NoDup l -> (forall i, i ∈ l -> 0 <= i) -> NoDup (batch_write <$> kept B l).*1.
Proof.
  intros Hl Hpos. rewrite <- list_fmap_compose.
  apply NoDup_fmap_2_strong.
  - intros [i df] [j df'] [Hi Hv]%elem_of_kept [Hj Hv']%elem_of_kept Heq.
    cbn in Heq. rewrite !batch_filename_entry in Heq.
    apply (inj (os_path_join OUTPUT_DIR)) in Heq.
    apply batch_entry_inj in Heq; [|specialize (Hpos i Hi); lia
                                   |specialize (Hpos j Hj); lia].
    assert (i = j) as -> by lia. congruence.
  - eapply NoDup_fmap_1, sublist_NoDup; [exact Hl|apply kept_sublist].
Qed.

(** X18 (no batch file is overwritten).  The batch files a run writes
    have pairwise different paths, whatever the row counts, and none is
    the combined file: at the end of the run every one of them holds the
    rows of its batch, as the query of that batch returned them. *)
Theorem batch_files_hold_their_batches B s :
  let r := batch_import_bigquery_data env B s in
  let ws := batch_writes_of (added s r.2) in
  NoDup ws.*1
  /\ (forall p df, (p, df) ∈ ws ->
        files r.2 !! p = Some df
        /\ df <> []
        /\ exists i, 0 <= i
             /\ p = batch_filename (i + 1) (length df)
             /\ src_query env (batch_query B (i * B)) = Returns df).
Proof.
  intros r ws. subst r ws. destruct (src_count env) as [R|e] eqn:Hc.
  - rewrite (run_added_returns _ _ _ Hc), batch_writes_of_run.
    assert (Hnd : NoDup (batch_write <$> kept_batches R B).*1).
    { apply kept_paths_NoDup; [apply NoDup_seqZ|].
      by intros i [? _]%elem_of_seqZ. }
    split; [done|]. intros p df Hin.
    rewrite (run_count_returns _ _ _ Hc). cbn [snd files].
    pose proof Hin as ([i df'] & [= -> ->] & Hk)%list_elem_of_fmap.
    apply elem_of_kept in Hk as [Hi Hv].
    apply elem_of_seqZ in Hi. apply verdict_keep_iff in Hv as (Hq & Hne & _).
    split; [|split; [done|exists i; by split; [lia|]]].
    rewrite combine_files_lookup by apply batch_filename_not_combined.
    by apply foldl_store_lookup.
  - rewrite (run_writes_raises _ _ _ Hc). split; [constructor|].
    by intros p df ?%elem_of_nil.
Qed.

(** *** The sample in closed form *)

Lemma read_files_take ss s0 have l :
  exists m : nat,
    read_files ss s0 have l = take m l
    /\ ((m < length l)%nat ->
        ss <= Z.of_nat (length (concat (have ++ (content s0 <$> take m l))))).
Proof.
  destruct l as [|f l].
  { exists 0%nat. split; [done|]. cbn [length]. lia. }
  destruct (read_files_prefix ss s0 have (f :: l) ltac:(done))
    as (m & _ & Heq & _ & Hge).
  by exists m.
Qed.

(** X19 (stopping early does not change the sample).  For a sample size
    [ss >= 0] the table the sampling pass builds is the first [ss] rows of
    the first five [.csv] files of the batch directory, concatenated in
    sorted order - whether or not the loop stopped reading before the
    fifth file.  So it has [ss] rows, or all the rows of those files when
    they are fewer; when the directory exists and holds a [.csv] file this
    table is what the pass writes. *)
Theorem sample_is_the_head_of_the_first_five_files ss s :
  0 <= ss ->
  let r := create_sample_from_batches env ss s in
  let rows := concat (content s <$> take 5 (csv_files s)) in
  sampled ss s = take (Z.to_nat ss) rows
  /\ length (sampled ss s) = Nat.min (Z.to_nat ss) (length rows)
  /\ (present_before s = true -> csv_files s <> [] ->
      match fs_write env sample_filename (take (Z.to_nat ss) rows) with
      | None =>
          writes_of (added s r.2) = [(sample_filename, take (Z.to_nat ss) rows)]
          /\ files r.2 !! sample_filename = Some (take (Z.to_nat ss) rows)
      | Some e => writes_of (added s r.2) = [] /\ r.1 = Raises e
      end).
Proof.
  intros Hss r rows. subst r rows.
  assert (Hs : sampled ss s
               = take (Z.to_nat ss) (concat (content s <$> take 5 (csv_files s)))).
  { unfold sampled, head, sample_read. rewrite bool_decide_true by done.
    destruct (read_files_take ss s [] (take 5 (csv_files s))) as (m & -> & Hge).
    cbn [app] in Hge.
    destruct (decide (m < length (take 5 (csv_files s)))%nat) as [Hlt|Hnlt].
    - specialize (Hge Hlt).
      rewrite <- (take_drop m (take 5 (csv_files s))) at 2.
      rewrite fmap_app, concat_app. rewrite take_app_le by lia. done.
    - by rewrite (take_ge (take 5 (csv_files s)) m) by lia. }
  split; [done|]. split; [by rewrite Hs, length_take|].
  intros Hp Hne. rewrite <- Hs.
  pose proof (sample_written ss s Hp (sample_read_cons ss s Hne)) as Hw.
  cbn zeta in Hw. destruct (fs_write env sample_filename (sampled ss s)).
  - done.
  - by destruct Hw as (? & ? & _).
Qed.

End Theory.

(** ** The theorems at the sample environments *)

Import Examples.


Lemma C2_failed_batch_is_skipped_witness :
  batch_fails env_second_fails 2 1 unavailable
  /\ (2, unavailable)
       ∈ errors_of (added fresh (batch_import_bigquery_data env_second_fails 2 fresh).2)
  /\ (exists m, Z.min (1 + 2) (num_batches 5 2) <= m <= num_batches 5 2
                /\ queries_of
                     (added fresh (batch_import_bigquery_data env_second_fails 2 fresh).2)
                   = (fun i => batch_query 2 (i * 2)) <$> seqZ 0 m).
Proof.
  assert (Hc : src_count env_second_fails = Returns 5) by reflexivity.
  assert (Hk : 0 <= 1 < num_batches 5 2)
    by (change (num_batches 5 2) with 3; lia).
  assert (Hbefore : forall i, 0 <= i < 1 ->
            src_query env_second_fails (batch_query 2 (i * 2)) <> Returns []).
  { intros i Hi. assert (i = 0) as -> by lia. vm_compute. discriminate. }
  assert (Hfail : batch_fails env_second_fails 2 1 unavailable)
    by (left; vm_compute; reflexivity).
  destruct (C2_failed_batch_is_skipped env_second_fails 5 2 fresh 1 unavailable
              Hc Hk Hbefore Hfail) as (Hlog & Hq & _).
  exact (conj Hfail (conj Hlog Hq)).
Defined.

Lemma C3_empty_batch_stops_the_loop_witness :
  src_query env_short (batch_query 2 (1 * 2)) = Returns []
  /\ queries_of (added fresh (batch_import_bigquery_data env_short 2 fresh).2)
     = (fun i => batch_query 2 (i * 2)) <$> seqZ 0 (1 + 1)
  /\ EvPrint (MsgZeroRows (1 + 1))
       ∈ added fresh (batch_import_bigquery_data env_short 2 fresh).2.
Proof.
  assert (Hc : src_count env_short = Returns 5) by reflexivity.
  assert (Hj : 0 <= 1 < num_batches 5 2)
    by (change (num_batches 5 2) with 3; lia).
  assert (Hbefore : forall i, 0 <= i < 1 ->
            src_query env_short (batch_query 2 (i * 2)) <> Returns []).
  { intros i Hi. assert (i = 0) as -> by lia. vm_compute. discriminate. }
  assert (Hempty : src_query env_short (batch_query 2 (1 * 2)) = Returns [])
    by (vm_compute; reflexivity).
  destruct (C3_empty_batch_stops_the_loop env_short 5 2 fresh 1
              Hc Hj Hbefore Hempty) as (Hq & _ & Hstop & _).
  exact (conj Hempty (conj Hq Hstop)).
Defined.

Lemma C4_combined_is_the_concatenation_witness :
  src_count env_second_fails = Returns 5
  /\ StronglySorted Z.lt (kept_batches env_second_fails 5 2).*1
  /\ filter (fun w => w.1 <> combined_filename)
            (writes_of
               (added fresh (batch_import_bigquery_data env_second_fails 2 fresh).2))
     = (fun k => (batch_filename (k.1 + 1) (length k.2), k.2))
         <$> kept_batches env_second_fails 5 2.
Proof.
  assert (Hc : src_count env_second_fails = Returns 5) by reflexivity.
  destruct (C4_combined_is_the_concatenation env_second_fails 5 2 fresh Hc)
    as (Hsorted & _ & Hfiles & _).
  exact (conj Hc (conj Hsorted Hfiles)).
Defined.



Lemma C8_count_failure_is_fatal_witness :
  src_count env_no_count = Raises unavailable
  /\ (batch_import_bigquery_data env_no_count 2 fresh).1 = Raises unavailable
  /\ added fresh (batch_import_bigquery_data env_no_count 2 fresh).2
     = [EvPrint MsgCounting; EvCount count_query].
Proof.
  assert (Hc : src_count env_no_count = Raises unavailable) by reflexivity.
  destruct (C8_count_failure_is_fatal env_no_count 2 fresh unavailable Hc)
    as (Hret & Hlog & _).
  exact (conj Hc (conj Hret Hlog)).
Defined.


Lemma C10_returned_value_is_always_true_witness :
  src_count env_all_fail = Returns 5
  /\ (batch_import_bigquery_data env_all_fail 2 fresh).1 = Returns true
  /\ writes_of (added fresh (batch_import_bigquery_data env_all_fail 2 fresh).2) = [].
Proof.
  assert (Hc : src_count env_all_fail = Returns 5) by reflexivity.
  assert (Hall : forall i, 0 <= i < num_batches 5 2 ->
            exists e, batch_fails env_all_fail 2 i e).
  { intros i _. exists unavailable. left. reflexivity. }
  destruct (C10_returned_value_is_always_true env_all_fail 2 fresh)
    as (_ & _ & Hfail).
  destruct (Hfail 5 Hc Hall) as (Hret & Hw & _).
  exact (conj Hc (conj Hret Hw)).
Defined.

(** ** Where two claims fail as stated *)



(** ** The further properties at the sample environments *)

Lemma export_keeps_the_batch_files_it_finds_witness :
  "batch_0001_2_rows.csv" ∈ csv_files exported
  /\ "batch_0001_2_rows.csv"
       ∈ csv_files (batch_import_bigquery_data env_ok 3 exported).2.
Proof.
  assert (Hf : "batch_0001_2_rows.csv" ∈ csv_files exported).
  { apply (bool_decide_unpack _). vm_compute. exact I. }
  destruct (export_keeps_the_batch_files_it_finds env_ok 3 exported _ Hf)
    as [Hin _].
  exact (conj Hf Hin).
Defined.

Lemma sampling_with_size_zero_or_below_witness :
  present_before exported = true
  /\ csv_files exported <> []
  /\ exists f rest table,
       csv_files exported = f :: rest
       /\ reads_of (added exported (create_sample_from_batches env_ok 0 exported).2)
          = [os_path_join OUTPUT_DIR f]
       /\ table = head 0 (content exported f).
Proof.
  assert (Hss : 0 <= 0) by lia.
  assert (Hp : present_before exported = true) by (vm_compute; reflexivity).
  assert (Hn : csv_files exported <> []) by (vm_compute; discriminate).
  destruct (sampling_with_size_zero_or_below env_ok 0 exported Hss Hp Hn)
    as (f & rest & table & Hcsv & Hreads & Htable & _).
  exact (conj Hp (conj Hn (ex_intro _ f (ex_intro _ rest (ex_intro _ table
           (conj Hcsv (conj Hreads Htable))))))).
Defined.

Lemma batch_size_follows_the_answer_witness :
  keyboard host_three = Typed (literal " 3 ")
  /\ client_init host_three = None
  /\ 0 < chosen (strip (literal " 3 "))
  /\ SaidStartingBatchImport (chosen (strip (literal " 3 ")))
       ∈ said start (batch_main env_ok host_three start).2.
Proof.
  assert (Hk : keyboard host_three = Typed (literal " 3 ")) by reflexivity.
  assert (Hc : client_init host_three = None) by reflexivity.
  destruct (batch_size_follows_the_answer env_ok host_three start _ Hk Hc)
    as (Hpos & _ & _ & _ & Hin & _).
  exact (conj Hk (conj Hc (conj Hpos Hin))).
Defined.





Lemma sample_is_the_head_of_the_first_five_files_witness :
  0 <= 3
  /\ sampled 3 exported
     = take (Z.to_nat 3) (concat (content exported <$> take 5 (csv_files exported)))
  /\ length (sampled 3 exported)
     = Nat.min (Z.to_nat 3)
         (length (concat (content exported <$> take 5 (csv_files exported)))).
Proof.
  assert (Hss : 0 <= 3) by lia.
  destruct (sample_is_the_head_of_the_first_five_files env_ok 3 exported Hss)
    as (Hs & Hl & _).
  exact (conj Hss (conj Hs Hl)).
Defined.

(** ** The count query of [import_all_data.py] *)

(** X20 (the count is only printed).  In [import_all_bigquery_data] the
    number the count query gives is used for printing alone: with the same
    query engine and file writer, two different counts give the same
    result, the same queries, the same writes and the same files.  Yet
    when the count query raises, the import is given up: [None] is
    returned, the main query is not issued and no file is written. *)
Theorem import_all_uses_the_count_for_printing_only
        {coord : Type} (q : string -> Result (DataFrame coord))
        (w : string -> DataFrame coord -> option exn)
        (h : Host) (σ : Session coord) :
  let run c := import_all_bigquery_data (mkEnv c q w) h σ in
  (forall R R',
     (run (Returns R)).1 = (run (Returns R')).1
     /\ files (disk (run (Returns R)).2) = files (disk (run (Returns R')).2)
     /\ queries_of (added (disk σ) (disk (run (Returns R)).2))
        = queries_of (added (disk σ) (disk (run (Returns R')).2))
     /\ writes_of (added (disk σ) (disk (run (Returns R)).2))
        = writes_of (added (disk σ) (disk (run (Returns R')).2)))
  /\ (forall e, client_init h = None ->
        (run (Raises e)).1 = Done None
        /\ queries_of (added (disk σ) (disk (run (Raises e)).2)) = []
        /\ writes_of (added (disk σ) (disk (run (Raises e)).2)) = []
        /\ files (disk (run (Raises e)).2) = files (disk σ)).
Proof.
  intros run. subst run. cbn beta. split.
  - intros R R'. rewrite !import_all_eq.
    rewrite !after_result, !after_files, !after_added.
    unfold import_all_run. cbn [src_count src_query fs_write].
    destruct (client_init h); [done|].
    destruct (q all_query) as [df|e]; [|done].
    destruct (w all_output_file df); [done|].
    by destruct (w all_sample_file (head 1000 df)).
  - intros e Hi. rewrite !import_all_eq.
    rewrite !after_result, !after_files, !after_added.
    unfold import_all_run. cbn [src_count src_query fs_write]. by rewrite Hi.
Qed.
